(** * TemperatureMonitor: the season-inference pipeline and its caching proxy

    A shallow embedding of the React client ([App.tsx] and its trailing-window
    revision) and of the Netlify function [temperature], followed by the
    properties of cache validity, normalisation, smoothing and season
    detection that the specification states about them. *)

From Stdlib Require Import ZArith Bool Ascii String SpecFloat Lia.
From stdpp Require Import base list strings.

Local Open Scope Z_scope.

(** ** JavaScript numbers

    A JS [number] is an IEEE-754 binary64 value.  [spec_float] is the
    sign/mantissa/exponent view of such values (NaN carries no payload), and
    the operations below are the round-to-nearest-even ones of [SpecFloat]
    at precision 53. *)
Module JS.

Definition number : Type := spec_float.

Definition prec : Z := 53.
Definition emax : Z := 1024.

Definition NaN : number := S754_nan.
Definition Infinity : number := S754_infinity false.

(** An integer literal such as [0], [10] or [windowData.length]. *)
Definition of_Z (n : Z) : number := binary_normalize prec emax n 0 false.

Definition add : number -> number -> number := SFadd prec emax.
Definition mul : number -> number -> number := SFmul prec emax.
Definition div : number -> number -> number := SFdiv prec emax.
Definition neg : number -> number := SFopp.

(** [x < y] and [x > y]; both are false as soon as one side is NaN. *)
Definition lt (x y : number) : bool := SFltb x y.
Definition gt (x y : number) : bool := SFltb y x.

Definition isNaN (x : number) : bool :=
  match x with S754_nan => true | _ => false end.

(** [Math.round]: the integer closest to [x], ties towards +Infinity, that
    is [floor (x + 1/2)] computed exactly.  NaN, the infinities and the
    zeros are returned as they are; a zero result keeps the sign of [x]. *)
Definition Math_round (x : number) : number :=
  match x with
  | S754_finite s m e =>
      if 0 <=? e then x
      else
        let k := - e in
        let n := (2 * cond_Zopp s (Zpos m) + 2 ^ k) / 2 ^ (k + 1) in
        binary_normalize prec emax n 0 s
  | _ => x
  end.

(** [Math.max] and [Math.min] on integer-valued arguments. *)
Definition Math_max : Z -> Z -> Z := Z.max.
Definition Math_min : Z -> Z -> Z := Z.min.

(** [Array.prototype.slice (start, end)]: a negative bound counts from the
    end of the array, both bounds are clamped to [0 .. length], and an
    empty array results when the start is not before the end. *)
Definition relative_index (len i : Z) : Z :=
  if i <? 0 then Z.max (len + i) 0 else Z.min i len.

Definition slice {A} (l : list A) (start stop : Z) : list A :=
  let len := Z.of_nat (length l) in
  let k := relative_index len start in
  let final := relative_index len stop in
  take (Z.to_nat (Z.max (final - k) 0)) (drop (Z.to_nat k) l).

(** [arr.slice (start)]: up to the end of the array. *)
Definition slice_from {A} (l : list A) (start : Z) : list A :=
  slice l start (Z.of_nat (length l)).

(** [arr.reduce (f, init)] and [arr.some (p)]. *)
Definition reduce {A B} (f : B -> A -> B) (l : list A) (init : B) : B :=
  fold_left f l init.

Definition some {A} (p : A -> bool) (l : list A) : bool := existsb p l.

(** *** [parseFloat]

    Leading white space is skipped, then the longest prefix that is a
    decimal literal (optional sign, [Infinity], or digits with an optional
    fraction and an optional complete exponent) is converted to the nearest
    binary64 value.  Without such a prefix the result is NaN.  Only the
    ASCII white-space characters are recognised here. *)
Definition digit_of (c : ascii) : option Z :=
  let n := Z.of_nat (nat_of_ascii c) in
  if (48 <=? n) && (n <=? 57) then Some (n - 48) else None.

Definition is_white_space (c : ascii) : bool :=
  let n := Z.of_nat (nat_of_ascii c) in
  ((9 <=? n) && (n <=? 13)) || (n =? 32).

Fixpoint skip_white_space (s : string) : string :=
  match s with
  | String c rest => if is_white_space c then skip_white_space rest else s
  | EmptyString => s
  end.

(** Reads a run of decimal digits: the value accumulated so far, the number
    of digits read so far, and what follows the run. *)
Fixpoint read_digits (s : string) (acc count : Z) : Z * Z * string :=
  match s with
  | String c rest =>
      match digit_of c with
      | Some d => read_digits rest (10 * acc + d) (count + 1)
      | None => (acc, count, s)
      end
  | EmptyString => (acc, count, s)
  end.

Definition read_sign (s : string) : bool * string :=
  match s with
  | String "-" rest => (true, rest)
  | String "+" rest => (false, rest)
  | _ => (false, s)
  end.

(** The exponent part [e], [e+] or [e-] followed by at least one digit;
    an incomplete exponent is not part of the literal and counts as 0. *)
Definition read_exponent (s : string) : Z :=
  match s with
  | String c rest =>
      if (Ascii.eqb c "e" || Ascii.eqb c "E")%bool then
        let '(sg, rest') := read_sign rest in
        let '(v, n, _) := read_digits rest' 0 0 in
        if 0 <? n then cond_Zopp sg v else 0
      else 0
  | EmptyString => 0
  end.

(** The binary64 value nearest to [(-1)^s * m * 10^e10]. *)
Definition of_decimal (s : bool) (m e10 : Z) : number :=
  match m with
  | Zpos p =>
      if 0 <=? e10 then binary_normalize prec emax (cond_Zopp s (m * 10 ^ e10)) 0 s
      else div (S754_finite s p 0) (S754_finite false (Z.to_pos (10 ^ (- e10))) 0)
  | _ => S754_zero s
  end.

Definition parseFloat (text : string) : number :=
  let '(sg, body) := read_sign (skip_white_space text) in
  if String.prefix "Infinity" body then S754_infinity sg
  else
    let '(ip, ni, rest) := read_digits body 0 0 in
    let '(m, nf, rest') :=
      match rest with
      | String "." frac => read_digits frac ip 0
      | _ => (ip, 0, rest)
      end in
    if (ni + nf) =? 0 then NaN
    else of_decimal sg m (read_exponent rest' - nf).

(** *** [Date] labels

    [new Date (text)] followed by [toLocaleTimeString] or
    [toLocaleDateString] with the [en-US] locale.  The upstream API delivers
    local wall-clock stamps of the form [YYYY-MM-DD HH:MM]; that form (with a
    space or a [T] between date and time) is read the way V8 reads it, a day
    past the end of its month rolling over into the next one.  The stamp is
    read and printed in the same time zone, so no offset appears.  Any other
    text is an invalid date, which both methods print as [Invalid Date]. *)
Record wall_clock := { month : Z; day : Z; hour : Z; minute : Z }.

Definition two_digits (c1 c2 : ascii) : option Z :=
  match digit_of c1, digit_of c2 with
  | Some d1, Some d2 => Some (10 * d1 + d2)
  | _, _ => None
  end.

Definition is_leap_year (y : Z) : bool :=
  ((y mod 4 =? 0) && negb (y mod 100 =? 0)) || (y mod 400 =? 0).

Definition days_in_month (y m : Z) : Z :=
  if m =? 2 then (if is_leap_year y then 29 else 28)
  else if (m =? 4) || (m =? 6) || (m =? 9) || (m =? 11) then 30
  else 31.

Definition make_wall_clock (y mo d h mi : Z) : option wall_clock :=
  if (1 <=? mo) && (mo <=? 12) && (1 <=? d) && (d <=? 31)
     && (h <=? 23) && (mi <=? 59)
  then
    let dim := days_in_month y mo in
    if d <=? dim then Some {| month := mo; day := d; hour := h; minute := mi |}
    else Some {| month := (if mo =? 12 then 1 else mo + 1); day := d - dim;
                 hour := h; minute := mi |}
  else None.

Definition Date_parse (text : string) : option wall_clock :=
  match list_ascii_of_string text with
  | [y1; y2; y3; y4; dash1; m1; m2; dash2; d1; d2; sep; h1; h2; colon; n1; n2] =>
      if Ascii.eqb dash1 "-" && Ascii.eqb dash2 "-" && Ascii.eqb colon ":"
         && (Ascii.eqb sep " " || Ascii.eqb sep "T")
      then
        match two_digits y1 y2, two_digits y3 y4, two_digits m1 m2,
              two_digits d1 d2, two_digits h1 h2, two_digits n1 n2 with
        | Some yh, Some yl, Some mo, Some d, Some h, Some mi =>
            make_wall_clock (100 * yh + yl) mo d h mi
        | _, _, _, _, _, _ => None
        end
      else None
  | _ => None
  end.

Definition digit_char (d : Z) : ascii := ascii_of_nat (Z.to_nat (48 + d)).

Definition pad2 (n : Z) : string :=
  String (digit_char (n / 10)) (String (digit_char (n mod 10)) EmptyString).

Definition decimal (n : Z) : string :=
  if n <? 10 then String (digit_char n) EmptyString else pad2 n.

Definition month_short (m : Z) : string :=
  nth (Z.to_nat (m - 1))
    ["Jan"; "Feb"; "Mar"; "Apr"; "May"; "Jun";
     "Jul"; "Aug"; "Sep"; "Oct"; "Nov"; "Dec"]%string ""%string.

(** [toLocaleTimeString ('en-US', { hour: '2-digit', minute: '2-digit' })] *)
Definition toLocaleTimeString (text : string) : string :=
  match Date_parse text with
  | Some t =>
      let h12 := if hour t mod 12 =? 0 then 12 else hour t mod 12 in
      let period := if hour t <? 12 then " AM"%string else " PM"%string in
      (pad2 h12 ++ ":" ++ pad2 (minute t) ++ period)%string
  | None => "Invalid Date"%string
  end.

(** [toLocaleDateString ('en-US', { month: 'short', day: 'numeric' })] *)
Definition toLocaleDateString (text : string) : string :=
  match Date_parse text with
  | Some t => (month_short (month t) ++ " " ++ decimal (day t))%string
  | None => "Invalid Date"%string
  end.

End JS.

(** ** Data model *)

(** A reading as the upstream API delivers it ([temperatur] is the API's own
    spelling). *)
Module TemperatureDataPoint.
Record t := { datetime : string; temperatur : string }.
End TemperatureDataPoint.

Module Station.
Record t := {
  title : string;
  id : string;
  temp : string;
  data : list TemperatureDataPoint.t
}.
End Station.

(** The upstream response.  It is parsed from untrusted JSON, so [stations]
    may be absent. *)
Module ApiResponse.
Record t := {
  full_exec_time : Z;
  title : string;
  client : string;
  stations : option (list Station.t)
}.
End ApiResponse.

Record ChartData := {
  datetime : string;
  temperature : JS.number;
  time : string;
  date : string
}.

(** [{ ...point, temperature: t }] *)
Definition with_temperature (point : ChartData) (t : JS.number) : ChartData :=
  {| datetime := datetime point; temperature := t;
     time := time point; date := date point |}.

Record SeasonInfo := { season : string; message : string }.

(** ** SeriesNormalizer *)

Definition convertApiDataToChartData (apiData : list TemperatureDataPoint.t)
  : list ChartData :=
  (fun point =>
     let dateTime := TemperatureDataPoint.datetime point in
     {| datetime := TemperatureDataPoint.datetime point;
        temperature := JS.parseFloat (TemperatureDataPoint.temperatur point);
        time := JS.toLocaleTimeString dateTime;
        date := JS.toLocaleDateString dateTime |})
  <$> apiData.

(** ** MovingAverageSmoother *)

(** The sum and the one-decimal average of a window, shared by both
    windowing policies. *)
Definition window_sum (windowData : list ChartData) : JS.number :=
  JS.reduce (fun acc item => JS.add acc (temperature item)) windowData (JS.of_Z 0).

Definition window_average (windowData : list ChartData) : JS.number :=
  JS.div (window_sum windowData) (JS.of_Z (Z.of_nat (length windowData))).

Definition round1 (average : JS.number) : JS.number :=
  JS.div (JS.Math_round (JS.mul average (JS.of_Z 10))) (JS.of_Z 10).

(** The trailing window of the revised client: the current point and the
    [windowSize - 1] points before it.  The window size is an integer, as it
    is at every call (24 or 6). *)
Definition trailing_window (data : list ChartData) (windowSize : Z) (index : nat)
  : list ChartData :=
  let start := JS.Math_max 0 (Z.of_nat index - windowSize + 1) in
  let stop := Z.of_nat index + 1 in
  JS.slice data start stop.

Definition calculateMovingAverage (data : list ChartData) (windowSize : Z)
  : list ChartData :=
  imap (fun index point =>
          with_temperature point
            (round1 (window_average (trailing_window data windowSize index))))
       data.

(** The centered window of [src/App.tsx]: [floor (windowSize / 2)] points
    before the current one and [ceil (windowSize / 2)] from it onwards. *)
Definition centered_window (data : list ChartData) (windowSize : Z) (index : nat)
  : list ChartData :=
  let start := JS.Math_max 0 (Z.of_nat index - windowSize / 2) in
  let stop :=
    JS.Math_min (Z.of_nat (length data)) (Z.of_nat index + (windowSize + 1) / 2) in
  JS.slice data start stop.

Definition calculateMovingAverage_centered (data : list ChartData) (windowSize : Z)
  : list ChartData :=
  imap (fun index point =>
          with_temperature point
            (round1 (window_average (centered_window data windowSize index))))
       data.

(** ** SeasonClassifier *)

Definition hoursIn5Days : Z := 5 * 24.

(** The counting loop [for (i = length - 1; i >= 0; i--)]: [n] is [i + 1],
    the number of indices still to visit; the loop leaves at the first
    reading that is not below the threshold. *)
Fixpoint consecutiveBelow (threshold : JS.number) (movingAvgData : list ChartData)
  (n : nat) (count : Z) : Z :=
  match n with
  | O => count
  | S i =>
      match movingAvgData !! i with
      | Some point =>
          if JS.lt (temperature point) threshold
          then consecutiveBelow threshold movingAvgData i (count + 1)
          else count
      | None => count
      end
  end.

Definition consecutiveHoursBelow (threshold : Z) (movingAvgData : list ChartData) : Z :=
  consecutiveBelow (JS.of_Z threshold) movingAvgData (length movingAvgData) 0.

Definition hasBeenAbove10InLast5Days (movingAvgData : list ChartData) : bool :=
  let last5Days := JS.slice_from movingAvgData (- hoursIn5Days) in
  JS.some (fun point => JS.gt (temperature point) (JS.of_Z 10)) last5Days.

Definition winter : SeasonInfo :=
  {| season := "winter"; message := "Seems like it's winter!" |}.
Definition autumn : SeasonInfo :=
  {| season := "autumn"; message := "Seems like it's autumn!" |}.
Definition summer : SeasonInfo :=
  {| season := "summer"; message := "Seems like it's summer!" |}.
Definition unknown : SeasonInfo :=
  {| season := "unknown"; message := "" |}.

Definition detectSeason (movingAvgData : list ChartData) : SeasonInfo :=
  let recentlyWarm := hasBeenAbove10InLast5Days movingAvgData in
  let consecutiveHoursBelow0 := consecutiveHoursBelow 0 movingAvgData in
  let consecutiveHoursBelow10 := consecutiveHoursBelow 10 movingAvgData in
  if hoursIn5Days <=? consecutiveHoursBelow0 then winter
  else if hoursIn5Days <=? consecutiveHoursBelow10 then autumn
  else if recentlyWarm then summer
  else unknown.

(** ** The client: local cache and [fetchTemperatureData]

    The revision of the component that smooths with the trailing window. *)
Module Client.

Definition CACHE_DURATION_MS : Z := 55 * 60 * 1000.

(** [isCacheValid (timestamp)]; [now] is the reading of [Date.now ()].
    Epoch milliseconds are integers far below 2^53, where the arithmetic of
    JS numbers is exact, so they are integers here. *)
Definition isCacheValid (now timestamp : Z) : bool :=
  (now - timestamp) <? CACHE_DURATION_MS.

(** What [localStorage] holds under [CACHE_KEY]. *)
Record CacheData := {
  cached_data : list TemperatureDataPoint.t;
  cached_stationInfo : Station.t;
  cached_timestamp : Z
}.

Inductive Storage :=
| NoItem
| Unparsable
| Item (cacheData : CacheData).

(** [saveToCache (data, stationInfo)] on the store [store], at the clock
    reading [now].  [writable] tells whether [localStorage.setItem] goes
    through; when it throws, the [catch] block swallows the error and the
    store is left as it was. *)
Definition saveToCache (store : Storage) (writable : bool) (now : Z)
  (data : list TemperatureDataPoint.t) (stationInfo : Station.t) : Storage :=
  let cacheData := {| cached_data := data; cached_stationInfo := stationInfo;
                      cached_timestamp := now |} in
  if writable then Item cacheData else store.

(** [loadFromCache]: the entry read, and the store afterwards (an expired or
    unreadable entry is removed). *)
Definition loadFromCache (now : Z) (store : Storage) : option CacheData * Storage :=
  match store with
  | NoItem => (None, NoItem)
  | Unparsable => (None, NoItem)
  | Item parsed =>
      if (cached_timestamp parsed =? 0)
         || negb (isCacheValid now (cached_timestamp parsed))
      then (None, NoItem)
      else (Some parsed, store)
  end.

(** The React state of the component. *)
Record State := {
  data : list ChartData;
  movingAverageData : list ChartData;
  loading : bool;
  error : option string;
  stationInfo : option Station.t;
  seasonInfo : SeasonInfo;
  lastUpdated : option Z;
  usingCachedData : bool
}.

Definition initial : State :=
  {| data := []; movingAverageData := []; loading := false; error := None;
     stationInfo := None; seasonInfo := unknown; lastUpdated := None;
     usingCachedData := false |}.

Definition setData (v : list ChartData) (st : State) : State :=
  {| data := v; movingAverageData := movingAverageData st; loading := loading st;
     error := error st; stationInfo := stationInfo st; seasonInfo := seasonInfo st;
     lastUpdated := lastUpdated st; usingCachedData := usingCachedData st |}.
Definition setMovingAverageData (v : list ChartData) (st : State) : State :=
  {| data := data st; movingAverageData := v; loading := loading st;
     error := error st; stationInfo := stationInfo st; seasonInfo := seasonInfo st;
     lastUpdated := lastUpdated st; usingCachedData := usingCachedData st |}.
Definition setLoading (v : bool) (st : State) : State :=
  {| data := data st; movingAverageData := movingAverageData st; loading := v;
     error := error st; stationInfo := stationInfo st; seasonInfo := seasonInfo st;
     lastUpdated := lastUpdated st; usingCachedData := usingCachedData st |}.
Definition setError (v : option string) (st : State) : State :=
  {| data := data st; movingAverageData := movingAverageData st; loading := loading st;
     error := v; stationInfo := stationInfo st; seasonInfo := seasonInfo st;
     lastUpdated := lastUpdated st; usingCachedData := usingCachedData st |}.
Definition setStationInfo (v : option Station.t) (st : State) : State :=
  {| data := data st; movingAverageData := movingAverageData st; loading := loading st;
     error := error st; stationInfo := v; seasonInfo := seasonInfo st;
     lastUpdated := lastUpdated st; usingCachedData := usingCachedData st |}.
Definition setSeasonInfo (v : SeasonInfo) (st : State) : State :=
  {| data := data st; movingAverageData := movingAverageData st; loading := loading st;
     error := error st; stationInfo := stationInfo st; seasonInfo := v;
     lastUpdated := lastUpdated st; usingCachedData := usingCachedData st |}.
Definition setLastUpdated (v : option Z) (st : State) : State :=
  {| data := data st; movingAverageData := movingAverageData st; loading := loading st;
     error := error st; stationInfo := stationInfo st; seasonInfo := seasonInfo st;
     lastUpdated := v; usingCachedData := usingCachedData st |}.
Definition setUsingCachedData (v : bool) (st : State) : State :=
  {| data := data st; movingAverageData := movingAverageData st; loading := loading st;
     error := error st; stationInfo := stationInfo st; seasonInfo := seasonInfo st;
     lastUpdated := lastUpdated st; usingCachedData := v |}.

(** The body of the Netlify function's answer, as [axios] hands it over. *)
Record FunctionResponse := {
  success : bool;
  response_error : option string;
  response_stations : option (list Station.t);
  response_timestamp : Z;
  response_cached : bool
}.

(** What the network does during one invocation.  In production the client
    asks the Netlify function; on [localhost] it asks the API through a CORS
    proxy, whose [contents] may fail to parse.  [None] is a rejected
    request (network error, timeout or a non-2xx status). *)
Inductive ProxyResult :=
| ContentsUnparsable
| ProxyData (apiData : ApiResponse.t).

Inductive Network :=
| Production (response : option FunctionResponse)
| LocalDevelopment (response : option ProxyResult).

(** The surroundings of one invocation: the clock before and after the
    request, the store and whether it accepts a write, the network, and the
    bundled [ExampleData.json] ([None] when the import fails). *)
Record Environment := {
  startedAt : Z;
  receivedAt : Z;
  storage : Storage;
  storageWritable : bool;
  network : Network;
  exampleData : option ApiResponse.t
}.

(** The [catch] branch: the bundled sample data, with a warning. *)
Definition fallback (exampleData : option ApiResponse.t) (st : State) : State :=
  match exampleData with
  | None =>
      setError (Some "Failed to fetch temperature data. Please try refreshing the page.") st
  | Some example =>
      match ApiResponse.stations example with
      | Some (station :: _) =>
          let st := setStationInfo (Some station) st in
          let chartData := convertApiDataToChartData (Station.data station) in
          let st := setData chartData st in
          let movingAvg := calculateMovingAverage chartData 24 in
          let st := setMovingAverageData movingAvg st in
          let currentSeason := detectSeason movingAvg in
          let st := setSeasonInfo currentSeason st in
          setError (Some "Using sample data (API temporarily unavailable)") st
      | _ => st
      end
  end.

Definition fetchTemperatureData (forceRefresh : bool) (env : Environment)
  (st : State) : State * Storage :=
  let st := setLoading true st in
  let st := setError None st in
  let st := setUsingCachedData false st in
  let '(cachedData, store) :=
    if forceRefresh then (None, storage env)
    else loadFromCache (startedAt env) (storage env) in
  match cachedData with
  | Some cached =>
      let st := setStationInfo (Some (cached_stationInfo cached)) st in
      let chartData := convertApiDataToChartData (cached_data cached) in
      let st := setData chartData st in
      let st := setMovingAverageData (calculateMovingAverage chartData 24) st in
      let st := setSeasonInfo (detectSeason chartData) st in
      let st := setLastUpdated (Some (cached_timestamp cached)) st in
      let st := setUsingCachedData true st in
      (setLoading false st, store)
  | None =>
      match network env with
      | Production (Some functionResponse) =>
          if negb (success functionResponse)
          then (setLoading false (fallback (exampleData env) st), store)
          else
            match response_stations functionResponse with
            | Some (station :: _) =>
                let store :=
                  saveToCache store (storageWritable env) (receivedAt env)
                    (Station.data station) station in
                let st := setStationInfo (Some station) st in
                let chartData := convertApiDataToChartData (Station.data station) in
                let st := setData chartData st in
                let movingAvg := calculateMovingAverage chartData 24 in
                let st := setMovingAverageData movingAvg st in
                let currentSeason := detectSeason movingAvg in
                let st := setSeasonInfo currentSeason st in
                let st := setLastUpdated (Some (response_timestamp functionResponse)) st in
                let st := setUsingCachedData (response_cached functionResponse) st in
                (setLoading false st, store)
            | _ =>
                let st := setError (Some "No temperature data available from the function") st in
                (setLoading false st, store)
            end
      | LocalDevelopment (Some (ProxyData apiData)) =>
          match ApiResponse.stations apiData with
          | Some (station :: _) =>
              let store :=
                  saveToCache store (storageWritable env) (receivedAt env)
                    (Station.data station) station in
              let st := setStationInfo (Some station) st in
              let chartData := convertApiDataToChartData (Station.data station) in
              let st := setData chartData st in
              let movingAvg := calculateMovingAverage chartData 24 in
              let st := setMovingAverageData movingAvg st in
              let currentSeason := detectSeason movingAvg in
              let st := setSeasonInfo currentSeason st in
              let st := setLastUpdated (Some (receivedAt env)) st in
              let st := setUsingCachedData false st in
              (setLoading false st, store)
          | _ =>
              let st := setError (Some "No temperature data available from the API") st in
              (setLoading false st, store)
          end
      | Production None
      | LocalDevelopment None
      | LocalDevelopment (Some ContentsUnparsable) =>
          (setLoading false (fallback (exampleData env) st), store)
      end
  end.

End Client.

(** ** The client of [src/App.tsx]

    Same state and local cache; it smooths with the centered window, over 6
    samples for cached and fetched data and over 24 for the sample data, and
    always asks the Netlify function. *)
Module CenteredClient.
Import Client.

Definition fallback (exampleData : option ApiResponse.t) (st : State) : State :=
  match exampleData with
  | None =>
      setError (Some "Failed to fetch temperature data. Please try refreshing the page.") st
  | Some example =>
      match ApiResponse.stations example with
      | Some (station :: _) =>
          let st := setStationInfo (Some station) st in
          let chartData := convertApiDataToChartData (Station.data station) in
          let st := setData chartData st in
          let movingAvg := calculateMovingAverage_centered chartData 24 in
          let st := setMovingAverageData movingAvg st in
          let currentSeason := detectSeason movingAvg in
          let st := setSeasonInfo currentSeason st in
          setError (Some "Using sample data (API temporarily unavailable)") st
      | _ => st
      end
  end.

Definition fetchTemperatureData (forceRefresh : bool) (startedAt receivedAt : Z)
  (storage : Storage) (storageWritable : bool) (response : option FunctionResponse)
  (exampleData : option ApiResponse.t) (st : State) : State * Storage :=
  let st := setLoading true st in
  let st := setError None st in
  let st := setUsingCachedData false st in
  let '(cachedData, store) :=
    if forceRefresh then (None, storage) else loadFromCache startedAt storage in
  match cachedData with
  | Some cached =>
      let st := setStationInfo (Some (cached_stationInfo cached)) st in
      let chartData := convertApiDataToChartData (cached_data cached) in
      let st := setData chartData st in
      let st := setMovingAverageData (calculateMovingAverage_centered chartData 6) st in
      let st := setSeasonInfo (detectSeason chartData) st in
      let st := setLastUpdated (Some (cached_timestamp cached)) st in
      let st := setUsingCachedData true st in
      (setLoading false st, store)
  | None =>
      match response with
      | Some functionResponse =>
          if negb (success functionResponse)
          then (setLoading false (fallback exampleData st), store)
          else
            match response_stations functionResponse with
            | Some (station :: _) =>
                let store :=
                  saveToCache store storageWritable receivedAt
                    (Station.data station) station in
                let st := setStationInfo (Some station) st in
                let chartData := convertApiDataToChartData (Station.data station) in
                let st := setData chartData st in
                let movingAvg := calculateMovingAverage_centered chartData 6 in
                let st := setMovingAverageData movingAvg st in
                let currentSeason := detectSeason movingAvg in
                let st := setSeasonInfo currentSeason st in
                let st := setLastUpdated (Some (response_timestamp functionResponse)) st in
                let st := setUsingCachedData (response_cached functionResponse) st in
                (setLoading false st, store)
            | _ =>
                let st := setError (Some "No temperature data available from the API") st in
                (setLoading false st, store)
            end
      | None => (setLoading false (fallback exampleData st), store)
      end
  end.

End CenteredClient.

(** ** The caching proxy: the Netlify function *)
Module Server.

(** The module-level [cache]; every field starts as [null]. *)
Record Cache := {
  data : option ApiResponse.t;
  timestamp : option Z;
  stationInfo : option Station.t
}.

Definition empty : Cache := {| data := None; timestamp := None; stationInfo := None |}.

Definition CACHE_DURATION_MS : Z := 55 * 60 * 1000.

(** [!cache.timestamp] holds for [null] and for [0]; [!cache.data] for
    [null] only, the data being an object. *)
Definition isCacheValid (cache : Cache) (now : Z) : bool :=
  match timestamp cache, data cache with
  | Some ts, Some _ =>
      if ts =? 0 then false else (now - ts) <? CACHE_DURATION_MS
  | _, _ => false
  end.

(** The promise of the upstream request: rejected with an error, or resolved
    with the parsed JSON ([None] for the JSON value [null]). *)
Inductive Upstream :=
| Rejected (message : string)
| Resolved (jsonData : option ApiResponse.t).

(** The object handed to [JSON.stringify] for the body. *)
Inductive Body :=
| EmptyBody
| ErrorOnly (error : string)
| Success (cached : bool) (timestamp : Z) (stations : list Station.t)
    (stationInfo : option Station.t)
| Failure (error : string) (timestamp : Z).

(** A header value: a literal, or [new Date (ms).toISOString ()]. *)
Inductive HeaderValue :=
| Text (s : string)
| ISOString (ms : Z).

Record Response := {
  statusCode : Z;
  headers : list (string * HeaderValue);
  body : Body
}.

Definition cors_headers : list (string * HeaderValue) :=
  [ ("Access-Control-Allow-Origin", Text "*");
    ("Access-Control-Allow-Headers", Text "Content-Type");
    ("Access-Control-Allow-Methods", Text "GET, OPTIONS");
    ("Content-Type", Text "application/json") ]%string.

Definition cache_headers (status : string) (ts : Z) : list (string * HeaderValue) :=
  app cors_headers
    [ ("Cache-Control", Text "public, max-age=3300");
      ("X-Cache-Status", Text status);
      ("X-Cache-Timestamp", ISOString ts) ]%string.

(** Completions of the [try] block: a response, or a thrown error. *)
Inductive Completion (A : Type) :=
| Normal (value : A)
| Throw (message : string).
Arguments Normal {A} value.
Arguments Throw {A} message.

(** The [try] block of the handler.  [checkedAt] is the clock when the cache
    is examined, [settledAt] the clock once the upstream request is over. *)
Definition try_block (cache : Cache) (checkedAt settledAt : Z) (upstream : Upstream)
  : Completion (Response * Cache) :=
  if isCacheValid cache checkedAt then
    match timestamp cache, data cache with
    | Some ts, Some cached =>
        Normal
          ({| statusCode := 200;
              headers := cache_headers "HIT" ts;
              body := Success true ts
                        (default [] (ApiResponse.stations cached))
                        (stationInfo cache) |},
           cache)
    | _, _ => Throw "Cannot read properties of null"
    end
  else
    match upstream with
    | Rejected message => Throw message
    | Resolved None => Throw "Cannot read properties of null (reading 'stations')"
    | Resolved (Some apiData) =>
        match ApiResponse.stations apiData with
        | Some (station :: rest) =>
            let now := settledAt in
            let cache' := {| data := Some apiData; timestamp := Some now;
                             stationInfo := Some station |} in
            Normal
              ({| statusCode := 200;
                  headers := cache_headers "MISS" now;
                  body := Success false now (station :: rest) (Some station) |},
               cache')
        | _ => Throw "No stations data received from API"
        end
    end.

(** [exports.handler]: the response, and the cache the module is left with. *)
Definition handler (httpMethod : string) (cache : Cache) (checkedAt settledAt : Z)
  (upstream : Upstream) : Response * Cache :=
  if String.eqb httpMethod "OPTIONS" then
    ({| statusCode := 200; headers := cors_headers; body := EmptyBody |}, cache)
  else if negb (String.eqb httpMethod "GET") then
    ({| statusCode := 405; headers := cors_headers;
        body := ErrorOnly "Method not allowed" |}, cache)
  else
    match try_block cache checkedAt settledAt upstream with
    | Normal result => result
    | Throw message =>
        ({| statusCode := 500; headers := cors_headers;
            body := Failure message settledAt |}, cache)
    end.

End Server.

(** ** The first client of [src/App.tsx]

    The earliest revision of the component: no local cache, no timestamp;
    it asks the API through the CORS proxy and smooths with the centered
    window over 24 samples. *)
Module ProxyClient.

Record State := {
  data : list ChartData;
  movingAverageData : list ChartData;
  loading : bool;
  error : option string;
  stationInfo : option Station.t;
  seasonInfo : SeasonInfo
}.

Definition initial : State :=
  {| data := []; movingAverageData := []; loading := false; error := None;
     stationInfo := None; seasonInfo := unknown |}.

Definition setData (v : list ChartData) (st : State) : State :=
  {| data := v; movingAverageData := movingAverageData st; loading := loading st;
     error := error st; stationInfo := stationInfo st; seasonInfo := seasonInfo st |}.
Definition setMovingAverageData (v : list ChartData) (st : State) : State :=
  {| data := data st; movingAverageData := v; loading := loading st;
     error := error st; stationInfo := stationInfo st; seasonInfo := seasonInfo st |}.
Definition setLoading (v : bool) (st : State) : State :=
  {| data := data st; movingAverageData := movingAverageData st; loading := v;
     error := error st; stationInfo := stationInfo st; seasonInfo := seasonInfo st |}.
Definition setError (v : option string) (st : State) : State :=
  {| data := data st; movingAverageData := movingAverageData st; loading := loading st;
     error := v; stationInfo := stationInfo st; seasonInfo := seasonInfo st |}.
Definition setStationInfo (v : option Station.t) (st : State) : State :=
  {| data := data st; movingAverageData := movingAverageData st; loading := loading st;
     error := error st; stationInfo := v; seasonInfo := seasonInfo st |}.
Definition setSeasonInfo (v : SeasonInfo) (st : State) : State :=
  {| data := data st; movingAverageData := movingAverageData st; loading := loading st;
     error := error st; stationInfo := stationInfo st; seasonInfo := v |}.

(** The series of a station, its smoothing and the verdict on it: the five
    statements that the [try] block and the [catch] block both run. *)
Definition show (station : Station.t) (st : State) : State :=
  let st := setStationInfo (Some station) st in
  let chartData := convertApiDataToChartData (Station.data station) in
  let st := setData chartData st in
  let movingAvg := calculateMovingAverage_centered chartData 24 in
  let st := setMovingAverageData movingAvg st in
  let currentSeason := detectSeason movingAvg in
  setSeasonInfo currentSeason st.

Definition fallback (exampleData : option ApiResponse.t) (st : State) : State :=
  match exampleData with
  | None =>
      setError (Some "Failed to fetch temperature data. Please try refreshing the page.") st
  | Some example =>
      match ApiResponse.stations example with
      | Some (station :: _) =>
          setError (Some "Using sample data (API temporarily unavailable)")
            (show station st)
      | _ => st
      end
  end.

(** [response] is what the proxy request gives: [None] when it is rejected,
    otherwise contents that may fail to parse. *)
Definition fetchTemperatureData (response : option Client.ProxyResult)
  (exampleData : option ApiResponse.t) (st : State) : State :=
  let st := setLoading true st in
  let st := setError None st in
  match response with
  | Some (Client.ProxyData apiData) =>
      match ApiResponse.stations apiData with
      | Some (station :: _) => setLoading false (show station st)
      | _ =>
          setLoading false
            (setError (Some "No temperature data available from the API") st)
      end
  | Some Client.ContentsUnparsable
  | None => setLoading false (fallback exampleData st)
  end.

End ProxyClient.

(** ** Vocabulary of the properties and sample data *)

(** The reading [-1.0]. *)
Definition minus_one : JS.number := JS.neg (JS.of_Z 1).

(** A reading of the smoothed series taken at 13:00 on 15 January. *)
Definition reading (t : JS.number) : ChartData :=
  {| datetime := "2024-01-15 13:00"; temperature := t;
     time := "01:00 PM"; date := "Jan 15" |}.

(** A raw reading stamped 13:00 on 15 January. *)
Definition raw (text : string) : TemperatureDataPoint.t :=
  {| TemperatureDataPoint.datetime := "2024-01-15 13:00";
     TemperatureDataPoint.temperatur := text |}.

(** A raw reading is malformed when its temperature text has no numeric
    prefix, that is when [parseFloat] yields NaN. *)
Definition malformed (point : TemperatureDataPoint.t) : bool :=
  JS.isNaN (JS.parseFloat (TemperatureDataPoint.temperatur point)).

Definition count_malformed (apiData : list TemperatureDataPoint.t) : nat :=
  length (List.filter malformed apiData).

Definition count_NaN (series : list ChartData) : nat :=
  length (List.filter (fun p => JS.isNaN (temperature p)) series).

Definition sample_station : Station.t :=
  {| Station.title := "Vasastan"; Station.id := "vasastan"; Station.temp := "1.5";
     Station.data := [raw "1.5"] |}.

Definition sample_response : ApiResponse.t :=
  {| ApiResponse.full_exec_time := 0; ApiResponse.title := "Temperatur.nu";
     ApiResponse.client := "apan"; ApiResponse.stations := Some [sample_station] |}.

(** The response of the [catch] branch. *)
Definition failure_response (message : string) (now : Z) : Server.Response :=
  {| Server.statusCode := 500; Server.headers := Server.cors_headers;
     Server.body := Server.Failure message now |}.

(** Whether an invocation is served from the local cache. *)
Definition served_from_cache (forceRefresh : bool) (now : Z) (store : Client.Storage)
  : bool :=
  if forceRefresh then false
  else match fst (Client.loadFromCache now store) with
       | Some _ => true
       | None => false
       end.

(** What an invocation leaves when it installs no series at all. *)
Definition series_untouched (before after : Client.State) : Prop :=
  Client.data after = Client.data before
  /\ Client.movingAverageData after = Client.movingAverageData before
  /\ Client.seasonInfo after = Client.seasonInfo before.

(** What it leaves when it shows [station]: the station, its normalised
    readings, their smoothing by [smooth], and the verdict on the smoothed
    series. *)
Definition station_installed (smooth : list ChartData -> list ChartData)
  (station : Station.t) (after : Client.State) : Prop :=
  Client.stationInfo after = Some station
  /\ Client.data after = convertApiDataToChartData (Station.data station)
  /\ Client.movingAverageData after = smooth (Client.data after)
  /\ Client.seasonInfo after = detectSeason (Client.movingAverageData after).

(** The station a request delivers: the first station of a successful
    answer of the function, or of the data the proxy passes on. *)
Definition delivered_station (network : Client.Network) : option Station.t :=
  match network with
  | Client.Production (Some functionResponse) =>
      if Client.success functionResponse
      then match Client.response_stations functionResponse with
           | Some (station :: _) => Some station
           | _ => None
           end
      else None
  | Client.LocalDevelopment (Some (Client.ProxyData apiData)) =>
      match ApiResponse.stations apiData with
      | Some (station :: _) => Some station
      | _ => None
      end
  | _ => None
  end.

(** The first station of the bundled sample data, when it can be loaded. *)
Definition bundled_station (exampleData : option ApiResponse.t) : option Station.t :=
  match exampleData with
  | Some example =>
      match ApiResponse.stations example with
      | Some (station :: _) => Some station
      | _ => None
      end
  | None => None
  end.

Definition function_answer (station : Station.t) : Client.FunctionResponse :=
  {| Client.success := true; Client.response_error := None;
     Client.response_stations := Some [station];
     Client.response_timestamp := 1700000000000;
     Client.response_cached := false |}.

(** 119 hourly readings of 5 degrees followed by one of 11 degrees. *)
Definition mild_then_warm : list TemperatureDataPoint.t :=
  replicate 119 (raw "5") ++ [raw "11"].

Definition station_of (readings : list TemperatureDataPoint.t) : Station.t :=
  {| Station.title := "Vasastan"; Station.id := "vasastan"; Station.temp := "11";
     Station.data := readings |}.

(** The binary64 value nearest to [k / 10]. *)
Definition tenths (k : Z) : JS.number := JS.div (JS.of_Z k) (JS.of_Z 10).

Definition number_eqb (x y : JS.number) : bool :=
  match x, y with
  | S754_zero s, S754_zero s' => Bool.eqb s s'
  | S754_infinity s, S754_infinity s' => Bool.eqb s s'
  | S754_nan, S754_nan => true
  | S754_finite s m e, S754_finite s' m' e' =>
      Bool.eqb s s' && Pos.eqb m m' && Z.eqb e e'
  | _, _ => false
  end.

Definition unchanged_at_boundary (k : Z) : bool :=
  number_eqb (round1 (window_average [reading (tenths k)])) (tenths k).

(** Whether the request of an invocation ends in the [catch] block: it is
    rejected, the proxy's contents do not parse, or the function answers
    with [success: false]. *)
Definition request_failed (network : Client.Network) : bool :=
  match network with
  | Client.Production None => true
  | Client.Production (Some functionResponse) => negb (Client.success functionResponse)
  | Client.LocalDevelopment None => true
  | Client.LocalDevelopment (Some Client.ContentsUnparsable) => true
  | Client.LocalDevelopment (Some (Client.ProxyData _)) => false
  end.

(** The states of the function's cache that the handler produces: nothing
    cached, or a response with at least one station, cached together with
    its time and its first station. *)
Definition coherent (cache : Server.Cache) : Prop :=
  cache = Server.empty
  \/ exists apiData station rest ts,
       ApiResponse.stations apiData = Some (station :: rest)
       /\ cache = {| Server.data := Some apiData; Server.timestamp := Some ts;
                     Server.stationInfo := Some station |}.

(** The 200 response to a GET: [status] is [HIT] or [MISS]. *)
Definition success_response (status : string) (cached : bool) (ts : Z)
  (stations : list Station.t) (info : option Station.t) : Server.Response :=
  {| Server.statusCode := 200; Server.headers := Server.cache_headers status ts;
     Server.body := Server.Success cached ts stations info |}.

(** Whether the one-decimal average of [n] readings of [k / 10] is [k / 10]
    again. *)
Definition constant_window_unchanged (k : Z) (n : nat) : bool :=
  number_eqb (round1 (window_average (replicate n (reading (tenths k))))) (tenths k).

(** What an invocation that is not served from the local cache leaves
    behind, path by path: the delivered station smoothed by [smooth_fetched];
    or, when the request fails, the bundled station smoothed by
    [smooth_sample]; or the series it had. *)
Definition shown_after (smooth_fetched smooth_sample : list ChartData -> list ChartData)
  (network : Client.Network) (exampleData : option ApiResponse.t)
  (before after : Client.State) : Prop :=
  match delivered_station network with
  | Some station => station_installed smooth_fetched station after
  | None =>
      if request_failed network then
        match bundled_station exampleData with
        | Some station => station_installed smooth_sample station after
        | None => series_untouched before after
        end
      else series_untouched before after
  end.

(** One of the last 120 readings of the series exceeds 10. *)
Definition recent_reading_above_10 (S : list ChartData) : Prop :=
  exists (i : nat) (p : ChartData),
    S !! i = Some p /\ (length S <= i + 120)%nat
    /\ JS.gt (temperature p) (JS.of_Z 10) = true.

(** * Properties *)

(** ** Windows *)

Lemma slice_nonneg {A} (l : list A) (start stop : Z) :
  0 <= start -> 0 <= stop ->
  JS.slice l start stop =
  take (Z.to_nat (Z.min stop (Z.of_nat (length l)))
        - Z.to_nat (Z.min start (Z.of_nat (length l))))%nat
       (drop (Z.to_nat (Z.min start (Z.of_nat (length l)))) l).
Proof.
  intros Hstart Hstop. unfold JS.slice, JS.relative_index.
  destruct (Z.ltb_spec start 0) as [?|_]; [lia|].
  destruct (Z.ltb_spec stop 0) as [?|_]; [lia|].
  f_equal. lia.
Qed.

(** With a non-positive window size the start of the trailing window is
    past its end, and the slice is empty. *)
Lemma trailing_window_nonpositive (data : list ChartData) (w : Z) (i : nat) :
  w <= 0 -> (i < length data)%nat -> trailing_window data w i = [].
Proof.
  intros Hw Hi. unfold trailing_window, JS.Math_max.
  rewrite slice_nonneg by lia.
  replace (_ - _)%nat with 0%nat by lia. reflexivity.
Qed.

(** At the left boundary the trailing window holds the first point only. *)
Lemma trailing_window_first (p : ChartData) (S : list ChartData) (w : Z) :
  0 < w -> trailing_window (p :: S) w 0 = [p].
Proof.
  intros Hw. unfold trailing_window, JS.Math_max.
  rewrite slice_nonneg by lia.
  replace (Z.max 0 (Z.of_nat 0 - w + 1)) with 0 by lia.
  cbn [length]. replace (Z.to_nat (Z.min 0 _)) with 0%nat by lia.
  replace (Z.to_nat (Z.min (Z.of_nat 0 + 1) _)) with 1%nat by lia.
  reflexivity.
Qed.

(** Hence the smoothed point at index 0. *)
Lemma calculateMovingAverage_head (p : ChartData) (S : list ChartData) (w : Z) :
  0 < w ->
  calculateMovingAverage (p :: S) w !! 0%nat =
  Some (with_temperature p (round1 (window_average [p]))).
Proof.
  intros Hw. unfold calculateMovingAverage. rewrite list_lookup_imap.
  cbn [lookup list_lookup fmap option_fmap option_map].
  rewrite trailing_window_first by exact Hw. reflexivity.
Qed.

Lemma round1_empty_window : round1 (window_average []) = JS.NaN.
Proof. reflexivity. Qed.

(** ** The counting loop of the classifier *)

Lemma consecutiveBelow_ge thr (l : list ChartData) (n : nat) :
  forall count, count <= consecutiveBelow thr l n count.
Proof.
  induction n as [|n IH]; intros count; cbn [consecutiveBelow]; [lia|].
  destruct (l !! n) as [p|]; [|lia].
  destruct (JS.lt (temperature p) thr); [|lia].
  specialize (IH (count + 1)). lia.
Qed.

(** A run of [k] readings below the threshold at the end of the visited
    range is counted in full. *)
Lemma consecutiveBelow_run thr (l : list ChartData) (n : nat) :
  forall (k : nat) (count : Z),
    (k <= n)%nat ->
    (forall i, (n - k <= i < n)%nat ->
               exists p, l !! i = Some p /\ JS.lt (temperature p) thr = true) ->
    count + Z.of_nat k <= consecutiveBelow thr l n count.
Proof.
  induction n as [|n IH]; intros k count Hk Hrun.
  - cbn [consecutiveBelow]. lia.
  - destruct k as [|k].
    + pose proof (consecutiveBelow_ge thr l (S n) count). lia.
    + cbn [consecutiveBelow].
      destruct (Hrun n ltac:(lia)) as (p & -> & ->).
      specialize (IH k (count + 1) ltac:(lia)).
      etransitivity; [|apply IH]; [lia|].
      intros i Hi. apply Hrun. lia.
Qed.

Lemma consecutiveHoursBelow_suffix (threshold : Z) (older recent : list ChartData) :
  Forall (fun p => JS.lt (temperature p) (JS.of_Z threshold) = true) recent ->
  Z.of_nat (length recent) <= consecutiveHoursBelow threshold (older ++ recent).
Proof.
  intros Hall. unfold consecutiveHoursBelow.
  pose proof (consecutiveBelow_run (JS.of_Z threshold) (older ++ recent)
                (length (older ++ recent)) (length recent) 0) as Hrun.
  rewrite length_app in *.
  etransitivity; [|apply Hrun]; [lia|lia|].
  intros i Hi.
  destruct (lookup_lt_is_Some_2 recent (i - length older)%nat ltac:(lia)) as [p Hp].
  exists p. split.
  - rewrite lookup_app_r by lia. exact Hp.
  - rewrite Forall_forall in Hall. apply Hall.
    eapply list_elem_of_lookup_2. exact Hp.
Qed.

(** C1. A series whose last 120 readings are all [-1.0] is classified as
    winter although it meets the autumn condition as well (its run below 10
    also reaches 120 samples); and for every series the verdict is decided in
    the order winter, autumn, summer, unknown, the first condition that holds
    winning. *)
Theorem detectSeason_winter_priority (older recent : list ChartData) :
  length recent = 120%nat ->
  Forall (fun p => temperature p = minus_one) recent ->
  detectSeason (older ++ recent) = winter
  /\ hoursIn5Days <= consecutiveHoursBelow 0 (older ++ recent)
  /\ hoursIn5Days <= consecutiveHoursBelow 10 (older ++ recent)
  /\ (forall S : list ChartData,
        detectSeason S =
        if hoursIn5Days <=? consecutiveHoursBelow 0 S then winter
        else if hoursIn5Days <=? consecutiveHoursBelow 10 S then autumn
        else if hasBeenAbove10InLast5Days S then summer
        else unknown).
Proof.
  intros Hlen Hall.
  assert (H0 : hoursIn5Days <= consecutiveHoursBelow 0 (older ++ recent)).
  { change hoursIn5Days with (Z.of_nat 120). rewrite <- Hlen.
    apply consecutiveHoursBelow_suffix.
    eapply Forall_impl; [exact Hall|]. intros p ->. reflexivity. }
  assert (H10 : hoursIn5Days <= consecutiveHoursBelow 10 (older ++ recent)).
  { change hoursIn5Days with (Z.of_nat 120). rewrite <- Hlen.
    apply consecutiveHoursBelow_suffix.
    eapply Forall_impl; [exact Hall|]. intros p ->. reflexivity. }
  repeat split; try assumption; try reflexivity.
  unfold detectSeason. cbv zeta.
  destruct (Z.leb_spec hoursIn5Days (consecutiveHoursBelow 0 (older ++ recent)));
    [reflexivity|lia].
Qed.

Lemma detectSeason_winter_priority_witness :
  detectSeason ([] ++ replicate 120 (reading minus_one)) = winter.
Proof.
  apply (detectSeason_winter_priority [] (replicate 120 (reading minus_one))).
  - reflexivity.
  - apply Forall_replicate. reflexivity.
Defined.

(** ** One-decimal readings

    The API reports temperatures with one decimal.  For such a reading,
    between -100.0 and 100.0 degrees, the rounding at the left boundary gives
    the reading back. *)

Lemma number_eqb_eq (x y : JS.number) : number_eqb x y = true -> x = y.
Proof.
  destruct x as [s|s| |s m e], y as [s'|s'| |s' m' e']; cbn; try discriminate;
    try reflexivity.
  - intros H. apply Bool.eqb_prop in H. congruence.
  - intros H. apply Bool.eqb_prop in H. congruence.
  - intros H. apply andb_prop in H as [H He]. apply andb_prop in H as [Hs Hm].
    apply Bool.eqb_prop in Hs. apply Pos.eqb_eq in Hm. apply Z.eqb_eq in He.
    congruence.
Qed.

Lemma one_decimal_table :
  forallb unchanged_at_boundary (seqZ (-1000) 2001) = true.
Proof. vm_compute. reflexivity. Qed.

Lemma one_decimal_reading_unchanged (k : Z) (p : ChartData) :
  -1000 <= k <= 1000 -> temperature p = tenths k ->
  round1 (window_average [p]) = temperature p.
Proof.
  intros Hk Hp.
  change (window_average [p]) with (window_average [reading (temperature p)]).
  rewrite Hp. apply number_eqb_eq.
  pose proof one_decimal_table as Htable.
  rewrite forallb_forall in Htable. apply Htable.
  apply list_elem_of_In, elem_of_seqZ. lia.
Qed.

(** ** Smoothing *)

(** C4. The smoothed series has as many elements as the series it is
    computed from, whatever the window size; this holds for the trailing
    window and for the centered one. *)
Theorem calculateMovingAverage_length (S : list ChartData) (w : Z) :
  length (calculateMovingAverage S w) = length S
  /\ length (calculateMovingAverage_centered S w) = length S.
Proof.
  unfold calculateMovingAverage, calculateMovingAverage_centered.
  split; apply length_imap.
Qed.

(** C9. Smoothing keeps, index by index, the timestamp and the two display
    labels of the source series; the temperature alone is replaced, by the
    one-decimal average of the trailing window at that index. *)
Theorem calculateMovingAverage_frame (S : list ChartData) (w : Z) :
  datetime <$> calculateMovingAverage S w = datetime <$> S
  /\ time <$> calculateMovingAverage S w = time <$> S
  /\ date <$> calculateMovingAverage S w = date <$> S
  /\ (forall i : nat,
        temperature <$> (calculateMovingAverage S w !! i) =
        (fun _ => round1 (window_average (trailing_window S w i))) <$> (S !! i)).
Proof.
  unfold calculateMovingAverage.
  repeat split;
    try (apply list_eq; intros i; rewrite !list_lookup_fmap, list_lookup_imap;
         destruct (S !! i); reflexivity).
  intros i. rewrite list_lookup_imap. destruct (S !! i); reflexivity.
Qed.

(** C7, as stated, fails: the first reading [1.25] is smoothed to [1.3]. *)
Lemma first_value_is_rounded :
  let S := convertApiDataToChartData [raw "1.25"] in
  temperature <$> (calculateMovingAverage S 24 !! 0%nat) = Some (JS.parseFloat "1.3")
  /\ temperature <$> (S !! 0%nat) = Some (JS.parseFloat "1.25")
  /\ temperature <$> (calculateMovingAverage S 24 !! 0%nat) <> temperature <$> (S !! 0%nat).
Proof.
  cbv zeta. split; [|split].
  - vm_compute. reflexivity.
  - vm_compute. reflexivity.
  - vm_compute. discriminate.
Qed.

(** C7, amended. For a non-empty series and a positive window size the
    trailing window at index 0 is the first point alone, and the smoothed
    value there is the average of that single reading rounded to one
    decimal place.  It is the first reading itself when that reading is a
    multiple of 0.1 between -100.0 and 100.0. *)
Theorem calculateMovingAverage_first (p : ChartData) (S : list ChartData) (w : Z) :
  0 < w ->
  trailing_window (p :: S) w 0 = [p]
  /\ calculateMovingAverage (p :: S) w !! 0%nat =
     Some (with_temperature p (round1 (window_average [p])))
  /\ (forall k : Z,
        -1000 <= k <= 1000 -> temperature p = tenths k ->
        temperature <$> (calculateMovingAverage (p :: S) w !! 0%nat) =
        Some (temperature p)).
Proof.
  intros Hw. split; [|split].
  - apply trailing_window_first. exact Hw.
  - apply calculateMovingAverage_head. exact Hw.
  - intros k Hk Hp. rewrite calculateMovingAverage_head by exact Hw.
    cbn [fmap option_fmap option_map with_temperature temperature].
    f_equal. eapply one_decimal_reading_unchanged; eassumption.
Qed.

Lemma calculateMovingAverage_first_witness :
  let p := reading (JS.parseFloat "1.3") in
  calculateMovingAverage [p] 24 !! 0%nat =
    Some (with_temperature p (round1 (window_average [p])))
  /\ temperature <$> (calculateMovingAverage [p] 24 !! 0%nat) = Some (temperature p).
Proof.
  intros p.
  destruct (calculateMovingAverage_first p [] 24 ltac:(reflexivity)) as (_ & H & Hk).
  split; [exact H|]. apply (Hk 13); [lia|reflexivity].
Defined.

(** C6, as stated, fails: with window sizes [0] and [-3] the smoother
    returns a series, every temperature of which is NaN. *)
Lemma nonpositive_window_returns :
  let S := convertApiDataToChartData [raw "1.25"; raw "2.5"] in
  calculateMovingAverage S 0 = (fun p => with_temperature p JS.NaN) <$> S
  /\ calculateMovingAverage S (-3) = (fun p => with_temperature p JS.NaN) <$> S
  /\ length (calculateMovingAverage S 0) = 2%nat.
Proof. cbv zeta. repeat split; vm_compute; reflexivity. Qed.

(** C6, amended. With a window size [w <= 0] the smoother raises nothing: it
    returns the series with every temperature replaced by NaN, the result of
    dividing the empty sum [0] by the empty window's length [0]. *)
Theorem calculateMovingAverage_nonpositive (S : list ChartData) (w : Z) :
  w <= 0 ->
  calculateMovingAverage S w = (fun p => with_temperature p JS.NaN) <$> S.
Proof.
  intros Hw. unfold calculateMovingAverage.
  rewrite <- imap_const. apply imap_ext. intros i p Hp. cbn [const].
  rewrite trailing_window_nonpositive; [reflexivity|exact Hw|].
  eapply lookup_lt_Some. exact Hp.
Qed.

Lemma calculateMovingAverage_nonpositive_witness :
  calculateMovingAverage [reading (JS.parseFloat "1.25")] 0 =
  (fun p => with_temperature p JS.NaN) <$> [reading (JS.parseFloat "1.25")].
Proof.
  apply (calculateMovingAverage_nonpositive [reading (JS.parseFloat "1.25")] 0).
  lia.
Defined.

(** ** Normalisation *)

(** C3, as stated, fails: of two raw readings, one of them malformed, both
    are kept, and the malformed one carries NaN into the output. *)
Lemma malformed_reading_is_kept :
  let apiData := [raw "1.5"; raw "N/A"] in
  let series := convertApiDataToChartData apiData in
  count_malformed apiData = 1%nat
  /\ length series <> (length apiData - count_malformed apiData)%nat
  /\ temperature <$> (series !! 1%nat) = Some JS.NaN
  /\ ~ Forall (fun p => JS.isNaN (temperature p) = false) series.
Proof.
  cbv zeta. split; [reflexivity|]. split; [vm_compute; lia|].
  split; [reflexivity|].
  intros Hall. rewrite Forall_lookup in Hall.
  specialize (Hall 1%nat _ eq_refl). discriminate Hall.
Qed.

(** C3, amended. The normaliser keeps every raw reading: the output has the
    length of the input, each output temperature is [parseFloat] of the text
    at the same index, and the output holds exactly as many NaN temperatures
    as the input holds malformed readings. *)
Theorem convertApiDataToChartData_keeps_all (apiData : list TemperatureDataPoint.t) :
  length (convertApiDataToChartData apiData) = length apiData
  /\ temperature <$> convertApiDataToChartData apiData =
     (fun point => JS.parseFloat (TemperatureDataPoint.temperatur point)) <$> apiData
  /\ datetime <$> convertApiDataToChartData apiData =
     TemperatureDataPoint.datetime <$> apiData
  /\ count_NaN (convertApiDataToChartData apiData) = count_malformed apiData.
Proof.
  unfold convertApiDataToChartData. split; [apply length_fmap|].
  split; [rewrite <- list_fmap_compose; reflexivity|].
  split; [rewrite <- list_fmap_compose; reflexivity|].
  unfold count_NaN, count_malformed.
  induction apiData as [|point rest IH]; [reflexivity|].
  cbn [fmap list_fmap List.filter temperature malformed].
  unfold malformed at 1.
  destruct (JS.isNaN (JS.parseFloat (TemperatureDataPoint.temperatur point)));
    cbn [length]; rewrite <- IH; reflexivity.
Qed.

(** ** Cache validity *)

(** C5. The validity boundary is exclusive.  For the client's check, an
    entry created at [createdAt] is stale when exactly [CACHE_DURATION_MS]
    (55 minutes) have passed and valid one millisecond earlier.  The same
    holds for the function's check of an existing entry, one whose data and
    timestamp are both set (a timestamp of [0] counts as unset). *)
Theorem isCacheValid_boundary (createdAt : Z) :
  Client.CACHE_DURATION_MS = 55 * 60 * 1000
  /\ Server.CACHE_DURATION_MS = 55 * 60 * 1000
  /\ Client.isCacheValid (createdAt + Client.CACHE_DURATION_MS) createdAt = false
  /\ Client.isCacheValid (createdAt + Client.CACHE_DURATION_MS - 1) createdAt = true
  /\ (forall (payload : ApiResponse.t) (info : option Station.t),
        createdAt <> 0 ->
        let cache := {| Server.data := Some payload;
                        Server.timestamp := Some createdAt;
                        Server.stationInfo := info |} in
        Server.isCacheValid cache (createdAt + Server.CACHE_DURATION_MS) = false
        /\ Server.isCacheValid cache (createdAt + Server.CACHE_DURATION_MS - 1) = true).
Proof.
  unfold Client.isCacheValid, Server.isCacheValid, Client.CACHE_DURATION_MS,
    Server.CACHE_DURATION_MS.
  split; [reflexivity|]. split; [reflexivity|]. split; [lia|]. split; [lia|].
  intros payload info Hset. cbv zeta. cbn [Server.timestamp Server.data].
  destruct (Z.eqb_spec createdAt 0) as [?|_]; [contradiction|].
  split; lia.
Qed.

Lemma isCacheValid_boundary_witness :
  let cache := {| Server.data := Some sample_response;
                  Server.timestamp := Some 1700000000000;
                  Server.stationInfo := None |} in
  Client.isCacheValid (1700000000000 + Client.CACHE_DURATION_MS) 1700000000000 = false
  /\ Client.isCacheValid (1700000000000 + Client.CACHE_DURATION_MS - 1) 1700000000000 = true
  /\ Server.isCacheValid cache (1700000000000 + Server.CACHE_DURATION_MS) = false
  /\ Server.isCacheValid cache (1700000000000 + Server.CACHE_DURATION_MS - 1) = true.
Proof.
  intros cache.
  destruct (isCacheValid_boundary 1700000000000) as (_ & _ & H1 & H2 & Hserver).
  split; [exact H1|]. split; [exact H2|].
  apply (Hserver sample_response None). discriminate.
Defined.

(** ** The verdict *)

(** C10. For every series, the empty one included, [detectSeason] returns a
    verdict whose season is one of [winter], [autumn], [summer] and
    [unknown], and whose message is empty exactly when the season is
    [unknown]; the empty series gets [unknown]. *)
Theorem detectSeason_verdict (S : list ChartData) :
  (season (detectSeason S) = "winter"%string
   \/ season (detectSeason S) = "autumn"%string
   \/ season (detectSeason S) = "summer"%string
   \/ season (detectSeason S) = "unknown"%string)
  /\ (message (detectSeason S) = ""%string <-> season (detectSeason S) = "unknown"%string)
  /\ detectSeason [] = unknown.
Proof.
  unfold detectSeason. cbv zeta.
  destruct (hoursIn5Days <=? consecutiveHoursBelow 0 S);
    [|destruct (hoursIn5Days <=? consecutiveHoursBelow 10 S);
      [|destruct (hasBeenAbove10InLast5Days S)]];
    cbn; (split; [tauto|split; [split; intros H; discriminate H || reflexivity|reflexivity]]).
Qed.

(** ** The proxy's failure response *)

(** C8, as stated, fails: a GET that finds no cached data and whose upstream
    request times out is answered with status 500, not 200. *)
Lemma upstream_failure_is_500 :
  let response :=
    fst (Server.handler "GET" Server.empty 1700000000000 1700000010000
           (Server.Rejected "Request timeout")) in
  Server.statusCode response = 500
  /\ Server.statusCode response <> 200
  /\ Server.body response = Server.Failure "Request timeout" 1700000010000.
Proof. cbv zeta. repeat split. discriminate. Qed.

(** C8, amended. When a GET finds no valid cached data and the upstream
    request fails (it is rejected, or it resolves without any station), the
    function answers with status 500, the plain CORS headers and the body
    [{ success: false, error, timestamp }], and it leaves the cache as it
    was. *)
Theorem handler_failure (cache : Server.Cache) (checkedAt settledAt : Z) :
  Server.isCacheValid cache checkedAt = false ->
  (forall message : string,
      Server.handler "GET" cache checkedAt settledAt (Server.Rejected message) =
      (failure_response message settledAt, cache))
  /\ (forall (t : Z) (title client : string),
        Server.handler "GET" cache checkedAt settledAt
          (Server.Resolved
             (Some {| ApiResponse.full_exec_time := t; ApiResponse.title := title;
                      ApiResponse.client := client; ApiResponse.stations := None |})) =
        (failure_response "No stations data received from API" settledAt, cache))
  /\ (forall (t : Z) (title client : string),
        Server.handler "GET" cache checkedAt settledAt
          (Server.Resolved
             (Some {| ApiResponse.full_exec_time := t; ApiResponse.title := title;
                      ApiResponse.client := client; ApiResponse.stations := Some [] |})) =
        (failure_response "No stations data received from API" settledAt, cache)).
Proof.
  intros Hmiss. unfold Server.handler, Server.try_block. rewrite Hmiss.
  repeat split.
Qed.

Lemma handler_failure_witness :
  Server.handler "GET" Server.empty 1700000000000 1700000010000
    (Server.Rejected "Request timeout") =
  (failure_response "Request timeout" 1700000010000, Server.empty).
Proof.
  apply (handler_failure Server.empty 1700000000000 1700000010000).
  reflexivity.
Defined.

(** ** What the classifier is given *)

(** C2, as stated, fails on both counts.  The client of [src/App.tsx],
    fetching the readings 0 and 10, smooths them with its centered window to
    5 and 5, which no trailing window yields; and the trailing-window
    client, served from its local cache, classifies the raw readings
    (summer) and not the smoothed series it displays (autumn). *)
Lemma classifier_input_counterexample :
  (let st := fst (CenteredClient.fetchTemperatureData true 1700000000000 1700000001000
                    Client.NoItem true
                    (Some (function_answer (station_of [raw "0"; raw "10"])))
                    None Client.initial) in
   temperature <$> Client.movingAverageData st = [JS.of_Z 5; JS.of_Z 5]
   /\ forall w, 0 < w ->
        Client.movingAverageData st <> calculateMovingAverage (Client.data st) w)
  /\ (let env := {| Client.startedAt := 1700000000000;
                    Client.receivedAt := 1700000001000;
                    Client.storage :=
                      Client.saveToCache Client.NoItem true 1699999000000
                        mild_then_warm (station_of mild_then_warm);
                    Client.storageWritable := true;
                    Client.network := Client.Production None;
                    Client.exampleData := None |} in
      let st := fst (Client.fetchTemperatureData false env Client.initial) in
      Client.usingCachedData st = true
      /\ Client.movingAverageData st = calculateMovingAverage (Client.data st) 24
      /\ Client.seasonInfo st = detectSeason (Client.data st)
      /\ Client.seasonInfo st = summer
      /\ detectSeason (Client.movingAverageData st) = autumn
      /\ Client.seasonInfo st <> detectSeason (Client.movingAverageData st)).
Proof.
  split.
  - cbv zeta. split; [vm_compute; reflexivity|].
    intros w Hw Heq.
    apply (f_equal (fun l => temperature <$> l !! 0%nat)) in Heq.
    match type of Heq with
    | context [calculateMovingAverage ?d w] =>
        let d' := eval vm_compute in d in change d with d' in Heq
    end.
    rewrite calculateMovingAverage_head in Heq by exact Hw.
    vm_compute in Heq. discriminate Heq.
  - cbv zeta. repeat split; try (vm_compute; reflexivity).
    vm_compute. discriminate.
Qed.

(** C2, amended. An invocation that is not served from the local cache
    never classifies raw readings.  When the request delivers a station it
    shows that station's normalised readings, their smoothing and the
    verdict of [detectSeason] on the smoothed series; when the request fails
    it does the same with the station of the sample data; otherwise it
    leaves the series as it was.  The smoothing is the trailing window over
    24 samples on both paths of the trailing-window client; in
    [src/App.tsx] it is the centered window, over 6 samples for fetched
    data and over 24 for the sample data. *)
Theorem fetch_classifies_smoothed (forceRefresh : bool) (env : Client.Environment)
  (response : option Client.FunctionResponse) (st : Client.State) :
  served_from_cache forceRefresh (Client.startedAt env) (Client.storage env) = false ->
  let trailing := fst (Client.fetchTemperatureData forceRefresh env st) in
  let centered :=
    fst (CenteredClient.fetchTemperatureData forceRefresh (Client.startedAt env)
           (Client.receivedAt env) (Client.storage env) (Client.storageWritable env)
           response (Client.exampleData env) st) in
  shown_after (fun S => calculateMovingAverage S 24)
              (fun S => calculateMovingAverage S 24)
              (Client.network env) (Client.exampleData env) st trailing
  /\ shown_after (fun S => calculateMovingAverage_centered S 6)
                 (fun S => calculateMovingAverage_centered S 24)
                 (Client.Production response) (Client.exampleData env) st centered.
Proof.
  intros Hmiss trailing centered. subst trailing centered.
  unfold Client.fetchTemperatureData, CenteredClient.fetchTemperatureData,
    Client.fallback, CenteredClient.fallback.
  unfold served_from_cache in Hmiss.
  assert (Hload :
    exists store,
      (if forceRefresh then (None, Client.storage env)
       else Client.loadFromCache (Client.startedAt env) (Client.storage env))
      = (None, store)).
  { destruct forceRefresh; [eexists; reflexivity|].
    destruct (Client.loadFromCache _ _) as [[cached|] store];
      [discriminate Hmiss|eexists; reflexivity]. }
  destruct Hload as [store ->].
  unfold shown_after, delivered_station, request_failed, bundled_station.
  split.
  - destruct (Client.network env) as [[functionResponse|]|[[|apiData]|]];
      try destruct (Client.success functionResponse);
      try destruct (Client.response_stations functionResponse) as [[|station rest]|];
      try destruct (ApiResponse.stations apiData) as [[|station rest]|];
      try (destruct (Client.exampleData env) as [example|];
           [destruct (ApiResponse.stations example) as [[|station' rest']|]|]);
      cbn; repeat split; reflexivity.
  - destruct response as [functionResponse|];
      try destruct (Client.success functionResponse);
      try destruct (Client.response_stations functionResponse) as [[|station rest]|];
      try (destruct (Client.exampleData env) as [example|];
           [destruct (ApiResponse.stations example) as [[|station' rest']|]|]);
      cbn; repeat split; reflexivity.
Qed.

Lemma fetch_classifies_smoothed_witness :
  let env := {| Client.startedAt := 1700000000000;
                Client.receivedAt := 1700000001000;
                Client.storage := Client.NoItem;
                Client.storageWritable := true;
                Client.network :=
                  Client.Production (Some (function_answer (station_of mild_then_warm)));
                Client.exampleData := Some sample_response |} in
  station_installed (fun S => calculateMovingAverage S 24) (station_of mild_then_warm)
    (fst (Client.fetchTemperatureData true env Client.initial))
  /\ station_installed (fun S => calculateMovingAverage_centered S 6)
       (station_of mild_then_warm)
       (fst (CenteredClient.fetchTemperatureData true 1700000000000 1700000001000
               Client.NoItem true
               (Some (function_answer (station_of mild_then_warm)))
               (Some sample_response) Client.initial))
  /\ station_installed (fun S => calculateMovingAverage_centered S 24) sample_station
       (fst (CenteredClient.fetchTemperatureData true 1700000000000 1700000001000
               Client.NoItem true None (Some sample_response) Client.initial)).
Proof.
  intros env.
  destruct (fetch_classifies_smoothed true env
              (Some (function_answer (station_of mild_then_warm))) Client.initial
              ltac:(reflexivity)) as [Htrailing Hfetched].
  destruct (fetch_classifies_smoothed true env None Client.initial
              ltac:(reflexivity)) as [_ Hsample].
  split; [exact Htrailing|]. split; [exact Hfetched|exact Hsample].
Defined.

(** * Further properties of the code *)

(** ** The trailing window *)

(** For a positive window size the trailing window at a valid index is the
    stretch of the series that ends at that index. *)
Lemma trailing_window_take_drop (data : list ChartData) (w : Z) (i : nat) :
  0 < w -> (i < length data)%nat ->
  trailing_window data w i =
  take (S i - Z.to_nat (Z.max 0 (Z.of_nat i - w + 1)))%nat
       (drop (Z.to_nat (Z.max 0 (Z.of_nat i - w + 1))) data).
Proof.
  intros Hw Hi. unfold trailing_window, JS.Math_max.
  rewrite slice_nonneg by lia. f_equal; [lia|f_equal; lia].
Qed.

Lemma trailing_window_lookup (data : list ChartData) (w : Z) (i j : nat) :
  0 < w -> (i < length data)%nat ->
  Z.of_nat i - w < Z.of_nat j -> (j <= i)%nat ->
  trailing_window data w i
    !! (j - Z.to_nat (Z.max 0 (Z.of_nat i - w + 1)))%nat = data !! j.
Proof.
  intros Hw Hi Hlow Hhigh. rewrite trailing_window_take_drop by assumption.
  rewrite lookup_take_lt by lia. rewrite lookup_drop. f_equal. lia.
Qed.

(** X1. For a positive window size the trailing window at index [i] holds
    [min (w, i + 1)] readings: it is never empty, so the average never
    divides by zero, and it shrinks to fewer than [w] readings only near the
    start of the series. *)
Theorem trailing_window_length (data : list ChartData) (w : Z) (i : nat) :
  0 < w -> (i < length data)%nat ->
  Z.of_nat (length (trailing_window data w i)) = Z.min w (Z.of_nat i + 1).
Proof.
  intros Hw Hi. rewrite trailing_window_take_drop by assumption.
  rewrite length_take, length_drop. lia.
Qed.

Lemma trailing_window_length_witness :
  Z.of_nat (length (trailing_window (replicate 30 (reading minus_one)) 24 5)) = 6
  /\ Z.of_nat (length (trailing_window (replicate 30 (reading minus_one)) 24 29)) = 24.
Proof.
  split.
  - apply (trailing_window_length (replicate 30 (reading minus_one)) 24 5).
    + reflexivity.
    + cbn. lia.
  - apply (trailing_window_length (replicate 30 (reading minus_one)) 24 29).
    + reflexivity.
    + cbn. lia.
Defined.

(** The window at index [i] reads nothing past index [i]. *)
Lemma trailing_window_take (data : list ChartData) (w : Z) (n i : nat) :
  (i < n)%nat -> (i < length data)%nat ->
  trailing_window (take n data) w i = trailing_window data w i.
Proof.
  intros Hn Hi.
  assert (Hi' : (i < length (take n data))%nat) by (rewrite length_take; lia).
  destruct (Z.le_gt_cases w 0) as [Hw|Hw].
  - rewrite !trailing_window_nonpositive by assumption. reflexivity.
  - rewrite !trailing_window_take_drop by assumption.
    apply list_eq. intros k.
    set (s := Z.to_nat (Z.max 0 (Z.of_nat i - w + 1))).
    destruct (decide (k < S i - s)%nat) as [Hk|Hk].
    + rewrite !lookup_take_lt by exact Hk. rewrite !lookup_drop.
      apply lookup_take_lt. lia.
    + rewrite !lookup_take_ge by lia. reflexivity.
Qed.

(** X2. Trailing smoothing is causal: smoothing the first [n] readings gives
    the first [n] smoothed readings of the whole series, for every window
    size, so no smoothed value depends on a later reading. *)
Theorem calculateMovingAverage_causal (data : list ChartData) (w : Z) (n : nat) :
  calculateMovingAverage (take n data) w = take n (calculateMovingAverage data w).
Proof.
  unfold calculateMovingAverage. apply list_eq. intros i.
  rewrite list_lookup_imap.
  destruct (decide (i < n)%nat) as [Hi|Hi].
  - rewrite !lookup_take_lt by exact Hi. rewrite list_lookup_imap.
    destruct (data !! i) as [p|] eqn:Hp; [|reflexivity].
    cbn [fmap option_fmap option_map].
    rewrite trailing_window_take; [reflexivity|exact Hi|].
    eapply lookup_lt_Some. exact Hp.
  - rewrite !lookup_take_ge by lia. reflexivity.
Qed.

(** ** NaN in the window *)

Lemma window_sum_NaN_from (l : list ChartData) :
  fold_left (fun acc item => JS.add acc (temperature item)) l JS.NaN = JS.NaN.
Proof. induction l as [|p l IH]; [reflexivity|exact IH]. Qed.

Lemma add_NaN_r (x y : JS.number) : JS.isNaN y = true -> JS.add x y = JS.NaN.
Proof. destruct y; try discriminate. intros _. destruct x; reflexivity. Qed.

Lemma window_average_NaN (windowData : list ChartData) (p : ChartData) :
  p ∈ windowData -> JS.isNaN (temperature p) = true ->
  round1 (window_average windowData) = JS.NaN.
Proof.
  intros Hin Hnan.
  apply list_elem_of_split in Hin as (l1 & l2 & ->).
  unfold window_average, window_sum, JS.reduce.
  rewrite fold_left_app. cbn [fold_left].
  rewrite add_NaN_r by exact Hnan. rewrite window_sum_NaN_from. reflexivity.
Qed.

(** X3. One NaN reading spoils the smoothed values of the [w] indices from
    its own onwards: if the reading at index [j] is NaN, then the smoothed
    temperature at every index [i] with [j <= i < j + w] is NaN. *)
Theorem calculateMovingAverage_NaN_spreads (data : list ChartData) (w : Z)
  (i j : nat) (p : ChartData) :
  0 < w ->
  data !! j = Some p -> JS.isNaN (temperature p) = true ->
  (j <= i)%nat -> Z.of_nat i < Z.of_nat j + w -> (i < length data)%nat ->
  temperature <$> (calculateMovingAverage data w !! i) = Some JS.NaN.
Proof.
  intros Hw Hj Hnan Hle Hlt Hi.
  unfold calculateMovingAverage. rewrite list_lookup_imap.
  destruct (lookup_lt_is_Some_2 data i Hi) as [q ->].
  cbn [fmap option_fmap option_map with_temperature temperature]. f_equal.
  apply (window_average_NaN _ p); [|exact Hnan].
  eapply list_elem_of_lookup_2.
  rewrite trailing_window_lookup; [exact Hj|lia..].
Qed.

Lemma calculateMovingAverage_NaN_spreads_witness :
  let data := convertApiDataToChartData [raw "1.5"; raw "N/A"; raw "2.5"; raw "3"] in
  temperature <$> (calculateMovingAverage data 2 !! 2%nat) = Some JS.NaN.
Proof.
  intros data.
  apply (calculateMovingAverage_NaN_spreads data 2 2 1
           {| datetime := "2024-01-15 13:00"; temperature := JS.NaN;
              time := "01:00 PM"; date := "Jan 15" |}).
  - reflexivity.
  - reflexivity.
  - reflexivity.
  - lia.
  - lia.
  - cbn. lia.
Defined.

(** ** The centered window *)

Lemma centered_window_take_drop (data : list ChartData) (w : Z) (i : nat) :
  0 < w -> (i < length data)%nat ->
  centered_window data w i =
  take (Z.to_nat (Z.min (Z.of_nat (length data)) (Z.of_nat i + (w + 1) / 2))
        - Z.to_nat (Z.max 0 (Z.of_nat i - w / 2)))%nat
       (drop (Z.to_nat (Z.max 0 (Z.of_nat i - w / 2))) data).
Proof.
  intros Hw Hi. unfold centered_window, JS.Math_max, JS.Math_min.
  assert (0 <= w / 2) by (apply Z.div_pos; lia).
  assert (1 <= (w + 1) / 2) by (apply Z.div_le_lower_bound; lia).
  rewrite slice_nonneg by lia. f_equal; [lia|f_equal; lia].
Qed.

(** X4. For a positive window size the centered window of [src/App.tsx] at
    a valid index holds between 1 and [w] readings, the reading of that index
    among them; and as soon as [w >= 3] it also holds the next reading, when
    there is one: the centered average looks ahead. *)
Theorem centered_window_span (data : list ChartData) (w : Z) (i : nat) :
  0 < w -> (i < length data)%nat ->
  1 <= Z.of_nat (length (centered_window data w i)) <= w
  /\ centered_window data w i
       !! (i - Z.to_nat (Z.max 0 (Z.of_nat i - w / 2)))%nat = data !! i
  /\ (3 <= w -> (S i < length data)%nat ->
      centered_window data w i
        !! (S i - Z.to_nat (Z.max 0 (Z.of_nat i - w / 2)))%nat = data !! S i).
Proof.
  intros Hw Hi.
  assert (Hlo : 0 <= w / 2) by (apply Z.div_pos; lia).
  assert (Hhi : 1 <= (w + 1) / 2) by (apply Z.div_le_lower_bound; lia).
  assert (Hsum : w / 2 + (w + 1) / 2 = w).
  { pose proof (Z.div_mod w 2 ltac:(lia)) as Hd.
    pose proof (Z.mod_pos_bound w 2 ltac:(lia)) as Hm.
    assert (Hcases : w mod 2 = 0 \/ w mod 2 = 1) by lia.
    destruct Hcases as [H0|H1].
    - replace (w + 1) with (1 + (w / 2) * 2) by lia.
      rewrite Z.div_add by lia. change (1 / 2) with 0. lia.
    - replace (w + 1) with (0 + (w / 2 + 1) * 2) by lia.
      rewrite Z.div_add by lia. change (0 / 2) with 0. lia. }
  rewrite centered_window_take_drop by assumption.
  split; [|split].
  - rewrite length_take, length_drop. lia.
  - rewrite lookup_take_lt by lia. rewrite lookup_drop. f_equal. lia.
  - intros Hw3 Hnext.
    assert (2 <= (w + 1) / 2) by (apply Z.div_le_lower_bound; lia).
    rewrite lookup_take_lt by lia. rewrite lookup_drop. f_equal. lia.
Qed.

Lemma centered_window_span_witness :
  let data := [reading (JS.of_Z 0); reading (JS.of_Z 10)] in
  1 <= Z.of_nat (length (centered_window data 6 0)) <= 6
  /\ centered_window data 6 0 !! 1%nat = Some (reading (JS.of_Z 10)).
Proof.
  intros data.
  destruct (centered_window_span data 6 0 ltac:(reflexivity) ltac:(cbn; lia))
    as (Hlen & _ & Hnext).
  split; [exact Hlen|].
  apply (Hnext ltac:(lia) ltac:(cbn; lia)).
Defined.

(** ** Comparisons of readings *)

Lemma lt_asym (x y : JS.number) : JS.lt x y = true -> JS.gt x y = false.
Proof.
  unfold JS.lt, JS.gt, SFltb.
  destruct x as [s|s| |s m e], y as [s'|s'| |s' m' e']; cbn;
    repeat match goal with b : bool |- _ => destruct b end;
    try discriminate; try reflexivity.
  - rewrite (Z.compare_antisym e e').
    replace (Pos.compare_cont Eq m' m) with (CompOpp (Pos.compare_cont Eq m m'))
      by (rewrite Pos.compare_cont_antisym; reflexivity).
    destruct (e ?= e'); cbn; try discriminate; try reflexivity.
    destruct (Pos.compare_cont Eq m m'); cbn; try discriminate; reflexivity.
  - rewrite (Z.compare_antisym e e').
    replace (Pos.compare_cont Eq m' m) with (CompOpp (Pos.compare_cont Eq m m'))
      by (rewrite Pos.compare_cont_antisym; reflexivity).
    destruct (e ?= e'); cbn; try discriminate; try reflexivity.
    destruct (Pos.compare_cont Eq m m'); cbn; try discriminate; reflexivity.
Qed.

(** A reading below 0 is below 10. *)
Lemma below0_below10 (x : JS.number) :
  JS.lt x (JS.of_Z 0) = true -> JS.lt x (JS.of_Z 10) = true.
Proof.
  destruct x as [s|s| |s m e]; cbn; try discriminate;
    destruct s; cbn; try discriminate; reflexivity.
Qed.

(** ** The counting loop, continued *)

Lemma consecutiveBelow_le thr (l : list ChartData) (n : nat) :
  forall count, consecutiveBelow thr l n count <= count + Z.of_nat n.
Proof.
  induction n as [|n IH]; intros count; cbn [consecutiveBelow]; [lia|].
  destruct (l !! n) as [p|]; [|lia].
  destruct (JS.lt (temperature p) thr); [|lia].
  specialize (IH (count + 1)). lia.
Qed.

(** A count of at least [k] means that the last [k] readings visited are all
    below the threshold. *)
Lemma consecutiveBelow_run_inv thr (l : list ChartData) (n : nat) :
  forall (k : nat) (count : Z),
    count + Z.of_nat k <= consecutiveBelow thr l n count ->
    forall i, (n - k <= i < n)%nat ->
              exists p, l !! i = Some p /\ JS.lt (temperature p) thr = true.
Proof.
  induction n as [|n IH]; intros k count Hcount i Hi; [lia|].
  cbn [consecutiveBelow] in Hcount.
  destruct k as [|k]; [lia|].
  destruct (l !! n) as [p|] eqn:Hp; [|lia].
  destruct (JS.lt (temperature p) thr) eqn:Hbelow; [|lia].
  destruct (decide (i = n)) as [->|Hne].
  - exists p. split; [exact Hp|exact Hbelow].
  - apply (IH k (count + 1)); [lia|lia].
Qed.

Lemma consecutiveBelow_weaken thr thr' (l : list ChartData) (n : nat) :
  (forall x, JS.lt x thr = true -> JS.lt x thr' = true) ->
  forall count, consecutiveBelow thr l n count <= consecutiveBelow thr' l n count.
Proof.
  intros Himp. induction n as [|n IH]; intros count; cbn [consecutiveBelow]; [lia|].
  destruct (l !! n) as [p|]; [|lia].
  destruct (JS.lt (temperature p) thr) eqn:Hbelow.
  - rewrite (Himp _ Hbelow). apply IH.
  - destruct (JS.lt (temperature p) thr'); [|lia].
    pose proof (consecutiveBelow_ge thr' l n (count + 1)). lia.
Qed.

(** The run reaches the look-back exactly when the last 120 readings are all
    below the threshold. *)
Lemma run_reaches_lookback (threshold : Z) (older recent : list ChartData) :
  length recent = 120%nat ->
  hoursIn5Days <= consecutiveHoursBelow threshold (older ++ recent)
  <-> Forall (fun p => JS.lt (temperature p) (JS.of_Z threshold) = true) recent.
Proof.
  intros Hlen. split.
  - intros Hrun. apply Forall_lookup. intros j x Hx.
    unfold consecutiveHoursBelow in Hrun.
    pose proof (lookup_lt_Some _ _ _ Hx) as Hj.
    destruct (consecutiveBelow_run_inv (JS.of_Z threshold) (older ++ recent)
                (length (older ++ recent)) 120 0 Hrun (length older + j)%nat)
      as (p & Hp & Hbelow).
    { rewrite length_app. lia. }
    rewrite lookup_app_r in Hp by lia.
    replace (length older + j - length older)%nat with j in Hp by lia.
    congruence.
  - intros Hall. change hoursIn5Days with (Z.of_nat 120). rewrite <- Hlen.
    apply consecutiveHoursBelow_suffix. exact Hall.
Qed.

Lemma slice_from_lookback (S : list ChartData) :
  JS.slice_from S (- hoursIn5Days) = drop (length S - 120) S.
Proof.
  unfold JS.slice_from, JS.slice, JS.relative_index, hoursIn5Days.
  destruct (Z.ltb_spec (- (5 * 24)) 0) as [_|?]; [|lia].
  destruct (Z.ltb_spec (Z.of_nat (length S)) 0) as [?|_]; [lia|].
  replace (Z.to_nat (Z.max (Z.of_nat (length S) + - (5 * 24)) 0))
    with (length S - 120)%nat by lia.
  apply take_ge. rewrite length_drop. lia.
Qed.

Lemma short_run (threshold : Z) (S : list ChartData) :
  (length S < 120)%nat -> (hoursIn5Days <=? consecutiveHoursBelow threshold S) = false.
Proof.
  intros Hshort. apply Z.leb_gt. unfold consecutiveHoursBelow, hoursIn5Days.
  pose proof (consecutiveBelow_le (JS.of_Z threshold) S (length S) 0). lia.
Qed.

(** A long enough run below 10 leaves no reading above 10 in the look-back. *)
Lemma autumn_run_not_warm (S : list ChartData) :
  hoursIn5Days <= consecutiveHoursBelow 10 S ->
  hasBeenAbove10InLast5Days S = false.
Proof.
  intros Hrun. unfold hasBeenAbove10InLast5Days, JS.some.
  rewrite slice_from_lookback.
  assert (Hlong : (120 <= length S)%nat).
  { pose proof (consecutiveBelow_le (JS.of_Z 10) S (length S) 0).
    unfold consecutiveHoursBelow, hoursIn5Days in *. lia. }
  rewrite <- (take_drop (length S - 120) S) in Hrun.
  apply run_reaches_lookback in Hrun; [|rewrite length_drop; lia].
  apply not_true_is_false. intros Hex.
  apply existsb_exists in Hex as (p & Hin & Hgt).
  rewrite Forall_forall in Hrun.
  apply list_elem_of_In in Hin. specialize (Hrun p Hin).
  apply lt_asym in Hrun. congruence.
Qed.

Lemma winter_run_le_autumn_run (S : list ChartData) :
  consecutiveHoursBelow 0 S <= consecutiveHoursBelow 10 S.
Proof.
  unfold consecutiveHoursBelow. apply consecutiveBelow_weaken.
  exact below0_below10.
Qed.

(** The test of the look-back, read on the readings themselves. *)
Lemma recently_warm_iff (S : list ChartData) :
  hasBeenAbove10InLast5Days S = true <-> recent_reading_above_10 S.
Proof.
  unfold hasBeenAbove10InLast5Days, JS.some, recent_reading_above_10.
  rewrite slice_from_lookback. rewrite existsb_exists. split.
  - intros (p & Hin & Hgt).
    apply list_elem_of_In, list_elem_of_lookup_1 in Hin as [j Hj].
    rewrite lookup_drop in Hj.
    exists (length S - 120 + j)%nat, p. repeat split; [exact Hj|lia|exact Hgt].
  - intros (i & p & Hp & Hrecent & Hgt).
    exists p. split; [|exact Hgt].
    apply list_elem_of_In. apply (list_elem_of_lookup_2 _ (i - (length S - 120))%nat).
    rewrite lookup_drop. rewrite <- Hp. f_equal. lia.
Qed.

(** ** Verdicts *)

(** X5. The run below 0 is never longer than the run below 10, so the
    winter condition implies the autumn condition: testing autumn first
    would leave winter unreachable. *)
Theorem winter_condition_implies_autumn (S : list ChartData) :
  consecutiveHoursBelow 0 S <= consecutiveHoursBelow 10 S
  /\ ((hoursIn5Days <=? consecutiveHoursBelow 0 S) = true ->
      (hoursIn5Days <=? consecutiveHoursBelow 10 S) = true).
Proof.
  pose proof (winter_run_le_autumn_run S) as Hle.
  split; [exact Hle|]. intros H. apply Z.leb_le in H. apply Z.leb_le. lia.
Qed.

(** X6. A series of fewer than 120 readings is never classified as winter
    or autumn: it is summer when one of its readings exceeds 10, and unknown
    when none does. *)
Theorem detectSeason_short_series (S : list ChartData) :
  (length S < 120)%nat ->
  (Exists (fun p => JS.gt (temperature p) (JS.of_Z 10) = true) S ->
   detectSeason S = summer)
  /\ (Forall (fun p => JS.gt (temperature p) (JS.of_Z 10) = false) S ->
      detectSeason S = unknown)
  /\ detectSeason S <> winter
  /\ detectSeason S <> autumn.
Proof.
  intros Hshort.
  assert (Hverdict :
    detectSeason S = if hasBeenAbove10InLast5Days S then summer else unknown).
  { unfold detectSeason. cbv zeta. rewrite !short_run by exact Hshort. reflexivity. }
  rewrite Hverdict. split; [|split; [|split]].
  - intros Hwarm. apply Exists_exists in Hwarm as (p & Hin & Hgt).
    apply list_elem_of_lookup_1 in Hin as [i Hi].
    assert (Hrecent : recent_reading_above_10 S).
    { exists i, p. repeat split; [exact Hi|lia|exact Hgt]. }
    apply recently_warm_iff in Hrecent. rewrite Hrecent. reflexivity.
  - intros Hcool.
    destruct (hasBeenAbove10InLast5Days S) eqn:Hwarm; [|reflexivity].
    apply recently_warm_iff in Hwarm as (i & p & Hp & _ & Hgt).
    rewrite Forall_lookup in Hcool. specialize (Hcool i p Hp). congruence.
  - destruct (hasBeenAbove10InLast5Days S); discriminate.
  - destruct (hasBeenAbove10InLast5Days S); discriminate.
Qed.

Lemma detectSeason_short_series_witness :
  detectSeason (replicate 100 (reading (JS.of_Z 8)) ++ [reading (JS.of_Z 11)]) = summer
  /\ detectSeason (replicate 119 (reading minus_one)) = unknown.
Proof.
  split.
  - apply (detectSeason_short_series
             (replicate 100 (reading (JS.of_Z 8)) ++ [reading (JS.of_Z 11)])).
    + cbn. lia.
    + apply Exists_app. right. apply Exists_cons_hd. reflexivity.
  - apply (detectSeason_short_series (replicate 119 (reading minus_one))).
    + cbn. lia.
    + apply Forall_replicate. reflexivity.
Defined.

(** X7. The verdict is summer exactly when one of the last 120 readings
    exceeds 10: such a reading breaks both runs, so neither winter nor
    autumn can win over it. *)
Theorem detectSeason_summer_iff (S : list ChartData) :
  detectSeason S = summer
  <-> exists (i : nat) (p : ChartData),
        S !! i = Some p /\ (length S <= i + 120)%nat
        /\ JS.gt (temperature p) (JS.of_Z 10) = true.
Proof.
  change (detectSeason S = summer <-> recent_reading_above_10 S).
  rewrite <- recently_warm_iff.
  unfold detectSeason. cbv zeta.
  pose proof (winter_run_le_autumn_run S) as Hle.
  destruct (Z.leb_spec hoursIn5Days (consecutiveHoursBelow 10 S)) as [Hrun|Hrun].
  - rewrite (autumn_run_not_warm S Hrun).
    destruct (hoursIn5Days <=? consecutiveHoursBelow 0 S); split; discriminate.
  - destruct (Z.leb_spec hoursIn5Days (consecutiveHoursBelow 0 S)); [lia|].
    destruct (hasBeenAbove10InLast5Days S); split; try discriminate; reflexivity.
Qed.

(** X8. Only the last five days count: the verdict on a series is the
    verdict on its last 120 readings. *)
Theorem detectSeason_last_five_days (S : list ChartData) :
  detectSeason (JS.slice_from S (- hoursIn5Days)) = detectSeason S.
Proof.
  rewrite slice_from_lookback.
  destruct (decide (length S < 120)%nat) as [Hshort|Hlong].
  - replace (length S - 120)%nat with 0%nat by lia. reflexivity.
  - assert (Hlen : length (drop (length S - 120) S) = 120%nat)
      by (rewrite length_drop; lia).
    assert (Hrun : forall threshold,
               (hoursIn5Days <=? consecutiveHoursBelow threshold (drop (length S - 120) S))
               = (hoursIn5Days <=? consecutiveHoursBelow threshold S)).
    { intros threshold.
      pose proof (run_reaches_lookback threshold [] _ Hlen) as Hrecent.
      pose proof (run_reaches_lookback threshold (take (length S - 120) S) _ Hlen)
        as Hwhole.
      rewrite take_drop in Hwhole. cbn [app] in Hrecent.
      destruct (Z.leb_spec hoursIn5Days
                  (consecutiveHoursBelow threshold (drop (length S - 120) S)));
        destruct (Z.leb_spec hoursIn5Days (consecutiveHoursBelow threshold S));
        try reflexivity; exfalso.
      - apply Hrecent, Hwhole in H. lia.
      - apply Hwhole, Hrecent in H0. lia. }
    unfold detectSeason. cbv zeta. rewrite !Hrun.
    unfold hasBeenAbove10InLast5Days. rewrite !slice_from_lookback.
    rewrite Hlen. replace (120 - 120)%nat with 0%nat by lia. reflexivity.
Qed.

(** X9. A series whose last 120 readings are all below 10, one of them at
    least not below 0, is classified as autumn. *)
Theorem detectSeason_autumn (older recent : list ChartData) :
  length recent = 120%nat ->
  Forall (fun p => JS.lt (temperature p) (JS.of_Z 10) = true) recent ->
  Exists (fun p => JS.lt (temperature p) (JS.of_Z 0) = false) recent ->
  detectSeason (older ++ recent) = autumn.
Proof.
  intros Hlen Hbelow10 Hnot0. unfold detectSeason. cbv zeta.
  pose proof (run_reaches_lookback 0 older recent Hlen) as Hwinter.
  pose proof (run_reaches_lookback 10 older recent Hlen) as Hautumn.
  destruct (Z.leb_spec hoursIn5Days (consecutiveHoursBelow 0 (older ++ recent)))
    as [Hrun|_].
  - exfalso. apply Hwinter in Hrun.
    apply Exists_exists in Hnot0 as (p & Hin & Hp).
    rewrite Forall_forall in Hrun. specialize (Hrun p Hin). congruence.
  - destruct (Z.leb_spec hoursIn5Days (consecutiveHoursBelow 10 (older ++ recent)))
      as [_|Hrun]; [reflexivity|].
    apply Hautumn in Hbelow10. lia.
Qed.

Lemma detectSeason_autumn_witness :
  detectSeason ([] ++ replicate 120 (reading (JS.of_Z 5))) = autumn.
Proof.
  apply (detectSeason_autumn [] (replicate 120 (reading (JS.of_Z 5)))).
  - reflexivity.
  - apply Forall_replicate. reflexivity.
  - apply Exists_exists. exists (reading (JS.of_Z 5)). split; [|reflexivity].
    apply (list_elem_of_lookup_2 _ 0%nat). reflexivity.
Defined.

(** X10. When the latest reading is not below 10 (it is 10 or more, or it is
    NaN) both runs are empty: the verdict is summer if one of the last 120
    readings exceeds 10 and unknown if none does, however cold the days
    before were. *)
Theorem detectSeason_latest_not_below (older : list ChartData) (latest : ChartData) :
  JS.lt (temperature latest) (JS.of_Z 10) = false ->
  consecutiveHoursBelow 10 (older ++ [latest]) = 0
  /\ consecutiveHoursBelow 0 (older ++ [latest]) = 0
  /\ ((exists (i : nat) (p : ChartData),
         (older ++ [latest]) !! i = Some p
         /\ (length (older ++ [latest]) <= i + 120)%nat
         /\ JS.gt (temperature p) (JS.of_Z 10) = true) ->
      detectSeason (older ++ [latest]) = summer)
  /\ ((forall (i : nat) (p : ChartData),
         (older ++ [latest]) !! i = Some p ->
         (length (older ++ [latest]) <= i + 120)%nat ->
         JS.gt (temperature p) (JS.of_Z 10) = false) ->
      detectSeason (older ++ [latest]) = unknown).
Proof.
  intros Hlatest.
  assert (H10 : consecutiveHoursBelow 10 (older ++ [latest]) = 0).
  { unfold consecutiveHoursBelow. rewrite length_app. cbn [length].
    replace (length older + 1)%nat with (S (length older)) by lia.
    cbn [consecutiveBelow].
    rewrite lookup_app_r by lia. replace (length older - length older)%nat with 0%nat by lia.
    cbn [lookup list_lookup]. rewrite Hlatest. reflexivity. }
  assert (H0 : consecutiveHoursBelow 0 (older ++ [latest]) = 0).
  { pose proof (winter_run_le_autumn_run (older ++ [latest])).
    pose proof (consecutiveBelow_ge (JS.of_Z 0) (older ++ [latest])
                  (length (older ++ [latest])) 0).
    unfold consecutiveHoursBelow in *. lia. }
  assert (Hverdict :
    detectSeason (older ++ [latest]) =
    if hasBeenAbove10InLast5Days (older ++ [latest]) then summer else unknown).
  { unfold detectSeason. cbv zeta. rewrite H0, H10. reflexivity. }
  split; [exact H10|]. split; [exact H0|]. rewrite Hverdict. split.
  - intros Hwarm. change (recent_reading_above_10 (older ++ [latest])) in Hwarm.
    apply recently_warm_iff in Hwarm. rewrite Hwarm. reflexivity.
  - intros Hcool.
    destruct (hasBeenAbove10InLast5Days (older ++ [latest])) eqn:Hwarm; [|reflexivity].
    apply recently_warm_iff in Hwarm as (i & p & Hp & Hrecent & Hgt).
    specialize (Hcool i p Hp Hrecent). congruence.
Qed.

Lemma detectSeason_latest_not_below_witness :
  detectSeason (replicate 200 (reading minus_one) ++ [reading (JS.of_Z 25)]) = summer
  /\ detectSeason (replicate 200 (reading minus_one) ++ [reading JS.NaN]) = unknown.
Proof.
  split.
  - destruct (detectSeason_latest_not_below (replicate 200 (reading minus_one))
                (reading (JS.of_Z 25)) ltac:(reflexivity)) as (_ & _ & Hsummer & _).
    apply Hsummer. exists 200%nat, (reading (JS.of_Z 25)).
    split; [reflexivity|]. split; [cbn; lia|reflexivity].
  - destruct (detectSeason_latest_not_below (replicate 200 (reading minus_one))
                (reading JS.NaN) ltac:(reflexivity)) as (_ & _ & _ & Hunknown).
    apply Hunknown. intros i p Hp Hrecent.
    apply lookup_app_Some in Hp as [Hp|[_ Hp]].
    + apply lookup_replicate_1 in Hp as [-> _]. reflexivity.
    + apply list_lookup_singleton_Some in Hp as [_ <-]. reflexivity.
Defined.

(** ** The client's local cache *)

Lemma saveToCache_loadFromCache_fresh (store : Client.Storage) (savedAt now : Z)
  (data : list TemperatureDataPoint.t) (info : Station.t) :
  savedAt <> 0 -> now - savedAt < Client.CACHE_DURATION_MS ->
  Client.loadFromCache now (Client.saveToCache store true savedAt data info) =
  (Some {| Client.cached_data := data; Client.cached_stationInfo := info;
           Client.cached_timestamp := savedAt |},
   Client.saveToCache store true savedAt data info).
Proof.
  intros Hset Hage.
  unfold Client.loadFromCache, Client.saveToCache, Client.isCacheValid.
  cbn [Client.cached_timestamp].
  destruct (Z.eqb_spec savedAt 0) as [?|_]; [contradiction|].
  destruct (Z.ltb_spec (now - savedAt) Client.CACHE_DURATION_MS); [reflexivity|lia].
Qed.

Lemma loadFromCache_keeps_store (now : Z) (store : Client.Storage)
  (cached : Client.CacheData) :
  fst (Client.loadFromCache now store) = Some cached ->
  Client.loadFromCache now store = (Some cached, store).
Proof.
  unfold Client.loadFromCache.
  destruct store as [| |parsed]; try discriminate.
  destruct (_ || _); [discriminate|].
  cbn [fst]. intros [= ->]. reflexivity.
Qed.

(** The path of [fetchTemperatureData] that a cache hit takes. *)
Lemma fetch_cached_path (env : Client.Environment) (st : Client.State)
  (cached : Client.CacheData) :
  fst (Client.loadFromCache (Client.startedAt env) (Client.storage env)) = Some cached ->
  Client.fetchTemperatureData false env st =
  (let chartData := convertApiDataToChartData (Client.cached_data cached) in
   {| Client.data := chartData;
      Client.movingAverageData := calculateMovingAverage chartData 24;
      Client.loading := false;
      Client.error := None;
      Client.stationInfo := Some (Client.cached_stationInfo cached);
      Client.seasonInfo := detectSeason chartData;
      Client.lastUpdated := Some (Client.cached_timestamp cached);
      Client.usingCachedData := true |},
   Client.storage env).
Proof.
  intros Hload. apply loadFromCache_keeps_store in Hload.
  unfold Client.fetchTemperatureData. rewrite Hload. reflexivity.
Qed.

(** X11. What [saveToCache] writes at a time other than 0, over any
    earlier store, is what [loadFromCache] gives back, store untouched, for
    the next 55 minutes; from then on [loadFromCache] gives nothing and
    removes the entry. *)
Theorem saveToCache_loadFromCache (store : Client.Storage) (savedAt now : Z)
  (data : list TemperatureDataPoint.t) (info : Station.t) :
  savedAt <> 0 ->
  (now - savedAt < Client.CACHE_DURATION_MS ->
   Client.loadFromCache now (Client.saveToCache store true savedAt data info) =
   (Some {| Client.cached_data := data; Client.cached_stationInfo := info;
            Client.cached_timestamp := savedAt |},
    Client.saveToCache store true savedAt data info))
  /\ (Client.CACHE_DURATION_MS <= now - savedAt ->
      Client.loadFromCache now (Client.saveToCache store true savedAt data info) =
      (None, Client.NoItem)).
Proof.
  intros Hset. unfold Client.loadFromCache, Client.saveToCache, Client.isCacheValid.
  cbn [Client.cached_timestamp].
  destruct (Z.eqb_spec savedAt 0) as [?|_]; [contradiction|].
  split; intros Hage.
  - destruct (Z.ltb_spec (now - savedAt) Client.CACHE_DURATION_MS); [reflexivity|lia].
  - destruct (Z.ltb_spec (now - savedAt) Client.CACHE_DURATION_MS); [lia|reflexivity].
Qed.

Lemma saveToCache_loadFromCache_witness :
  fst (Client.loadFromCache 1700000060000
         (Client.saveToCache Client.NoItem true 1700000000000 [raw "1.5"]
            sample_station)) =
  Some {| Client.cached_data := [raw "1.5"]; Client.cached_stationInfo := sample_station;
          Client.cached_timestamp := 1700000000000 |}.
Proof.
  destruct (saveToCache_loadFromCache Client.NoItem 1700000000000 1700000060000
              [raw "1.5"] sample_station ltac:(discriminate)) as [Hfresh _].
  rewrite Hfresh; [reflexivity|reflexivity].
Defined.

(** X12. [loadFromCache] never hands out an expired entry or one without a
    timestamp: an entry it returns is the stored one, younger than 55
    minutes, and the store is left as it was; whenever it returns nothing the
    key holds nothing afterwards. *)
Theorem loadFromCache_sound (now : Z) (store : Client.Storage) :
  match Client.loadFromCache now store with
  | (Some cached, store') =>
      store = Client.Item cached /\ store' = store
      /\ Client.cached_timestamp cached <> 0
      /\ now - Client.cached_timestamp cached < Client.CACHE_DURATION_MS
  | (None, store') => store' = Client.NoItem
  end.
Proof.
  unfold Client.loadFromCache, Client.isCacheValid.
  destruct store as [| |cached]; [reflexivity|reflexivity|].
  destruct (Z.eqb_spec (Client.cached_timestamp cached) 0) as [?|Hset];
    [reflexivity|].
  destruct (Z.ltb_spec (now - Client.cached_timestamp cached) Client.CACHE_DURATION_MS);
    cbn; [|reflexivity].
  repeat split; assumption.
Qed.

(** ** [fetchTemperatureData] *)

(** X13. An invocation served from the local cache asks nothing of the
    network: it shows the cached readings, their trailing average and the
    cached station, marks the data as cached and dated by the entry, clears
    the error, and leaves the store alone, whatever the network and the
    sample data are.  The verdict it shows is computed from the readings
    themselves. *)
Theorem fetch_from_cache (env : Client.Environment) (st : Client.State)
  (cached : Client.CacheData) :
  fst (Client.loadFromCache (Client.startedAt env) (Client.storage env)) = Some cached ->
  let chartData := convertApiDataToChartData (Client.cached_data cached) in
  Client.fetchTemperatureData false env st =
  ({| Client.data := chartData;
      Client.movingAverageData := calculateMovingAverage chartData 24;
      Client.loading := false;
      Client.error := None;
      Client.stationInfo := Some (Client.cached_stationInfo cached);
      Client.seasonInfo := detectSeason chartData;
      Client.lastUpdated := Some (Client.cached_timestamp cached);
      Client.usingCachedData := true |},
   Client.storage env).
Proof.
  intros Hload chartData. subst chartData.
  apply fetch_cached_path. exact Hload.
Qed.

Lemma fetch_from_cache_witness :
  let env := {| Client.startedAt := 1700000060000;
                Client.receivedAt := 1700000061000;
                Client.storage :=
                  Client.saveToCache Client.NoItem true 1700000000000 [raw "1.5"]
                    sample_station;
                Client.storageWritable := true;
                Client.network := Client.Production None;
                Client.exampleData := None |} in
  Client.usingCachedData (fst (Client.fetchTemperatureData false env Client.initial)) = true.
Proof.
  intros env.
  rewrite (fetch_from_cache env Client.initial
             {| Client.cached_data := [raw "1.5"];
                Client.cached_stationInfo := sample_station;
                Client.cached_timestamp := 1700000000000 |});
    reflexivity.
Defined.

(** X14. Every invocation, of each of the three revisions of the client and
    along every path, ends with the loading flag cleared. *)
Theorem fetch_ends_loading (forceRefresh : bool) (env : Client.Environment)
  (response : option Client.FunctionResponse) (proxied : option Client.ProxyResult)
  (st : Client.State) (st0 : ProxyClient.State) :
  Client.loading (fst (Client.fetchTemperatureData forceRefresh env st)) = false
  /\ Client.loading
       (fst (CenteredClient.fetchTemperatureData forceRefresh (Client.startedAt env)
               (Client.receivedAt env) (Client.storage env)
               (Client.storageWritable env) response
               (Client.exampleData env) st)) = false
  /\ ProxyClient.loading
       (ProxyClient.fetchTemperatureData proxied (Client.exampleData env) st0) = false.
Proof.
  unfold Client.fetchTemperatureData, CenteredClient.fetchTemperatureData,
    ProxyClient.fetchTemperatureData.
  split; [|split].
  - destruct (if forceRefresh then _ else _) as [[cached|] store]; [reflexivity|].
    destruct (Client.network env) as [[functionResponse|]|[[|apiData]|]];
      try reflexivity.
    + destruct (negb (Client.success functionResponse)); [reflexivity|].
      destruct (Client.response_stations functionResponse) as [[|? ?]|]; reflexivity.
    + destruct (ApiResponse.stations apiData) as [[|? ?]|]; reflexivity.
  - destruct (if forceRefresh then _ else _) as [[cached|] store]; [reflexivity|].
    destruct response as [functionResponse|]; [|reflexivity].
    destruct (negb (Client.success functionResponse)); [reflexivity|].
    destruct (Client.response_stations functionResponse) as [[|? ?]|]; reflexivity.
  - destruct proxied as [[|apiData]|]; try reflexivity.
    destruct (ApiResponse.stations apiData) as [[|? ?]|]; reflexivity.
Qed.

(** X15. A successful fetch through the Netlify function, received at a time
    other than 0, feeds the local cache when the write to [localStorage]
    goes through: any later unforced invocation that starts less than 55
    minutes after it is then served from that cache, shows the same
    readings, smoothed series and station, and is dated by the moment the
    first answer was received.  When the write throws, nothing is stored:
    the store keeps what the cache look-up left, the entry it had after a
    forced refresh and nothing otherwise. *)
Theorem fetch_then_cached (forceRefresh : bool) (env : Client.Environment)
  (st : Client.State) (functionResponse : Client.FunctionResponse)
  (station : Station.t) (rest : list Station.t) :
  served_from_cache forceRefresh (Client.startedAt env) (Client.storage env) = false ->
  Client.network env = Client.Production (Some functionResponse) ->
  Client.success functionResponse = true ->
  Client.response_stations functionResponse = Some (station :: rest) ->
  Client.receivedAt env <> 0 ->
  let first := fst (Client.fetchTemperatureData forceRefresh env st) in
  let stored := snd (Client.fetchTemperatureData forceRefresh env st) in
  (Client.storageWritable env = true ->
   forall (later : Client.Environment) (st' : Client.State),
     Client.storage later = stored ->
     Client.startedAt later - Client.receivedAt env < Client.CACHE_DURATION_MS ->
     let second := fst (Client.fetchTemperatureData false later st') in
     Client.data second = Client.data first
     /\ Client.movingAverageData second = Client.movingAverageData first
     /\ Client.stationInfo second = Client.stationInfo first
     /\ Client.usingCachedData second = true
     /\ Client.lastUpdated second = Some (Client.receivedAt env)
     /\ snd (Client.fetchTemperatureData false later st') = Client.storage later)
  /\ (Client.storageWritable env = false ->
      stored = if forceRefresh then Client.storage env else Client.NoItem).
Proof.
  intros Hmiss Hnet Hok Hstations Hset first stored.
  assert (Hload :
    exists store,
      (if forceRefresh then (None, Client.storage env)
       else Client.loadFromCache (Client.startedAt env) (Client.storage env))
      = (None, store)
      /\ store = if forceRefresh then Client.storage env else Client.NoItem).
  { unfold served_from_cache in Hmiss.
    destruct forceRefresh; [eexists; split; reflexivity|].
    pose proof (loadFromCache_keeps_store (Client.startedAt env) (Client.storage env)).
    unfold Client.loadFromCache in *.
    destruct (Client.storage env) as [| |parsed];
      [eexists; split; reflexivity..|].
    destruct (_ || _); [eexists; split; reflexivity|discriminate Hmiss]. }
  destruct Hload as (store & Hload & Hstore).
  assert (Hfirst :
    Client.fetchTemperatureData forceRefresh env st =
    (let chartData := convertApiDataToChartData (Station.data station) in
     {| Client.data := chartData;
        Client.movingAverageData := calculateMovingAverage chartData 24;
        Client.loading := false;
        Client.error := None;
        Client.stationInfo := Some station;
        Client.seasonInfo := detectSeason (calculateMovingAverage chartData 24);
        Client.lastUpdated := Some (Client.response_timestamp functionResponse);
        Client.usingCachedData := Client.response_cached functionResponse |},
     Client.saveToCache store (Client.storageWritable env) (Client.receivedAt env)
       (Station.data station) station)).
  { unfold Client.fetchTemperatureData.
    rewrite Hload, Hnet, Hok, Hstations. reflexivity. }
  subst first stored. rewrite Hfirst. cbn [fst snd]. split.
  - intros Hwritable later st' Hlater Hage. rewrite Hwritable in Hlater.
    pose proof (saveToCache_loadFromCache_fresh store (Client.receivedAt env)
                  (Client.startedAt later) (Station.data station) station Hset Hage)
      as Hfresh.
    rewrite (fetch_cached_path later st' _ ltac:(rewrite Hlater, Hfresh; reflexivity)).
    cbn. repeat split; reflexivity.
  - intros Hwritable. rewrite Hwritable. cbn. exact Hstore.
Qed.

Lemma fetch_then_cached_witness :
  let env := {| Client.startedAt := 1700000000000;
                Client.receivedAt := 1700000001000;
                Client.storage := Client.NoItem;
                Client.storageWritable := true;
                Client.network :=
                  Client.Production (Some (function_answer (station_of [raw "1.5"])));
                Client.exampleData := None |} in
  let later := {| Client.startedAt := 1700000600000;
                  Client.receivedAt := 1700000601000;
                  Client.storage :=
                    snd (Client.fetchTemperatureData true env Client.initial);
                  Client.storageWritable := true;
                  Client.network := Client.Production None;
                  Client.exampleData := None |} in
  Client.data (fst (Client.fetchTemperatureData false later Client.initial)) =
  Client.data (fst (Client.fetchTemperatureData true env Client.initial))
  /\ Client.usingCachedData
       (fst (Client.fetchTemperatureData false later Client.initial)) = true.
Proof.
  intros env later.
  destruct (fetch_then_cached true env Client.initial
              (function_answer (station_of [raw "1.5"])) (station_of [raw "1.5"]) []
              ltac:(reflexivity) ltac:(reflexivity) ltac:(reflexivity)
              ltac:(reflexivity) ltac:(discriminate)) as [Hstored _].
  destruct (Hstored ltac:(reflexivity) later Client.initial
              ltac:(reflexivity) ltac:(reflexivity))
    as (Hdata & _ & _ & Hcached & _).
  split; [exact Hdata|exact Hcached].
Defined.

(** X16. When the request fails and the invocation is not served from the
    local cache, the trailing-window client falls back on the bundled sample
    data.  With a station in the sample data it shows that station's series
    and the warning that sample data is in use; when the sample data cannot
    be loaded it shows the failure message and keeps the series it had.  In
    both cases the time of the last update stays as it was and the data is
    not marked as cached. *)
Theorem fetch_falls_back (forceRefresh : bool) (env : Client.Environment)
  (st : Client.State) :
  served_from_cache forceRefresh (Client.startedAt env) (Client.storage env) = false ->
  request_failed (Client.network env) = true ->
  let after := fst (Client.fetchTemperatureData forceRefresh env st) in
  Client.lastUpdated after = Client.lastUpdated st
  /\ Client.usingCachedData after = false
  /\ match Client.exampleData env with
     | None =>
         Client.error after =
           Some "Failed to fetch temperature data. Please try refreshing the page."%string
         /\ series_untouched st after
     | Some example =>
         match ApiResponse.stations example with
         | Some (station :: _) =>
             Client.error after =
               Some "Using sample data (API temporarily unavailable)"%string
             /\ Client.stationInfo after = Some station
             /\ Client.data after = convertApiDataToChartData (Station.data station)
             /\ Client.movingAverageData after =
                calculateMovingAverage (Client.data after) 24
             /\ Client.seasonInfo after = detectSeason (Client.movingAverageData after)
         | _ => Client.error after = None /\ series_untouched st after
         end
     end.
Proof.
  intros Hmiss Hfailed after. subst after.
  unfold Client.fetchTemperatureData, Client.fallback.
  unfold served_from_cache in Hmiss.
  assert (Hload :
    exists store,
      (if forceRefresh then (None, Client.storage env)
       else Client.loadFromCache (Client.startedAt env) (Client.storage env))
      = (None, store)).
  { destruct forceRefresh; [eexists; reflexivity|].
    destruct (Client.loadFromCache _ _) as [[c|] store];
      [discriminate Hmiss|eexists; reflexivity]. }
  destruct Hload as [store ->].
  destruct (Client.network env) as [[functionResponse|]|[[|apiData]|]];
    cbn [request_failed] in Hfailed; try discriminate Hfailed;
    try rewrite Hfailed;
    (destruct (Client.exampleData env) as [example|];
     [destruct (ApiResponse.stations example) as [[|station rest]|]|]);
    cbn; repeat split; reflexivity.
Qed.

Lemma fetch_falls_back_witness :
  let env := {| Client.startedAt := 1700000000000;
                Client.receivedAt := 1700000015000;
                Client.storage := Client.NoItem;
                Client.storageWritable := true;
                Client.network := Client.Production None;
                Client.exampleData := Some sample_response |} in
  Client.error (fst (Client.fetchTemperatureData false env Client.initial)) =
  Some "Using sample data (API temporarily unavailable)"%string.
Proof.
  intros env.
  destruct (fetch_falls_back false env Client.initial
              ltac:(reflexivity) ltac:(reflexivity)) as (_ & _ & Herror & _).
  exact Herror.
Defined.

(** X17. In the first client of [src/App.tsx], which has no cache, every
    invocation either leaves the series as it was or shows the normalised
    readings of a station, their centered average over 24 samples and the
    verdict of [detectSeason] on that average; and no station is ever shown
    without the three being updated together. *)
Theorem proxy_fetch_classifies_smoothed (response : option Client.ProxyResult)
  (exampleData : option ApiResponse.t) (st : ProxyClient.State) :
  let after := ProxyClient.fetchTemperatureData response exampleData st in
  (ProxyClient.data after = ProxyClient.data st
   /\ ProxyClient.movingAverageData after = ProxyClient.movingAverageData st
   /\ ProxyClient.seasonInfo after = ProxyClient.seasonInfo st
   /\ ProxyClient.stationInfo after = ProxyClient.stationInfo st)
  \/ (exists station,
        ProxyClient.stationInfo after = Some station
        /\ ProxyClient.data after = convertApiDataToChartData (Station.data station)
        /\ ProxyClient.movingAverageData after =
           calculateMovingAverage_centered (ProxyClient.data after) 24
        /\ ProxyClient.seasonInfo after =
           detectSeason (ProxyClient.movingAverageData after)).
Proof.
  intros after. subst after.
  unfold ProxyClient.fetchTemperatureData, ProxyClient.fallback, ProxyClient.show.
  destruct response as [[|apiData]|];
    try (destruct (ApiResponse.stations apiData) as [[|station rest]|]);
    try (destruct exampleData as [example|];
         [destruct (ApiResponse.stations example) as [[|station' rest']|]|]);
    first [ left; repeat split; reflexivity
          | right; eexists; repeat split; reflexivity ].
Qed.

(** ** The Netlify function *)

Lemma isCacheValid_inv (cache : Server.Cache) (now : Z) :
  Server.isCacheValid cache now = true ->
  exists ts apiData,
    Server.timestamp cache = Some ts /\ Server.data cache = Some apiData
    /\ ts <> 0 /\ now - ts < Server.CACHE_DURATION_MS.
Proof.
  unfold Server.isCacheValid.
  destruct (Server.timestamp cache) as [ts|]; [|discriminate].
  destruct (Server.data cache) as [apiData|]; [|discriminate].
  destruct (Z.eqb_spec ts 0); [discriminate|].
  intros H. apply Z.ltb_lt in H. eauto 10.
Qed.

(** X18. While the cached entry is valid a GET is answered from it, with
    status 200, the [HIT] headers, [cached: true] and the time of the entry;
    the upstream API is not consulted (the answer is the same whatever the
    upstream would do) and the cache is left as it is. *)
Theorem handler_hit (cache : Server.Cache) (checkedAt : Z) :
  Server.isCacheValid cache checkedAt = true ->
  exists ts apiData,
    Server.timestamp cache = Some ts /\ Server.data cache = Some apiData
    /\ checkedAt - ts < Server.CACHE_DURATION_MS
    /\ forall (settledAt : Z) (upstream : Server.Upstream),
         Server.handler "GET" cache checkedAt settledAt upstream =
         (success_response "HIT" true ts
            (default [] (ApiResponse.stations apiData)) (Server.stationInfo cache),
          cache).
Proof.
  intros Hvalid.
  destruct (isCacheValid_inv cache checkedAt Hvalid) as (ts & apiData & Hts & Hdata & _ & Hage).
  exists ts, apiData. repeat split; try assumption.
  intros settledAt upstream.
  unfold Server.handler, Server.try_block. cbn [String.eqb Ascii.eqb Bool.eqb negb].
  rewrite Hvalid, Hts, Hdata. reflexivity.
Qed.

Lemma handler_hit_witness :
  let cache := {| Server.data := Some sample_response;
                  Server.timestamp := Some 1700000000000;
                  Server.stationInfo := Some sample_station |} in
  exists ts apiData,
    Server.timestamp cache = Some ts /\ Server.data cache = Some apiData
    /\ 1700000060000 - ts < Server.CACHE_DURATION_MS
    /\ forall (settledAt : Z) (upstream : Server.Upstream),
         Server.handler "GET" cache 1700000060000 settledAt upstream =
         (success_response "HIT" true ts
            (default [] (ApiResponse.stations apiData)) (Server.stationInfo cache),
          cache).
Proof.
  intros cache. apply (handler_hit cache 1700000060000). reflexivity.
Defined.

Lemma handler_miss (cache : Server.Cache) (checkedAt settledAt : Z)
  (apiData : ApiResponse.t) (station : Station.t) (rest : list Station.t) :
  Server.isCacheValid cache checkedAt = false ->
  ApiResponse.stations apiData = Some (station :: rest) ->
  Server.handler "GET" cache checkedAt settledAt (Server.Resolved (Some apiData)) =
  (success_response "MISS" false settledAt (station :: rest) (Some station),
   {| Server.data := Some apiData; Server.timestamp := Some settledAt;
      Server.stationInfo := Some station |}).
Proof.
  intros Hmiss Hstations.
  unfold Server.handler, Server.try_block. cbn [String.eqb Ascii.eqb Bool.eqb negb].
  rewrite Hmiss, Hstations. reflexivity.
Qed.

(** X19. A GET that misses the cache and gets at least one station from
    upstream answers 200 with the [MISS] headers and stores the response,
    and, the time of storing not being 0, every GET checked less than 55
    minutes later is a [HIT] that returns the same stations and the same
    first station, without consulting upstream. *)
Theorem handler_miss_then_hit (cache : Server.Cache) (checkedAt settledAt : Z)
  (apiData : ApiResponse.t) (station : Station.t) (rest : list Station.t) :
  Server.isCacheValid cache checkedAt = false ->
  ApiResponse.stations apiData = Some (station :: rest) ->
  settledAt <> 0 ->
  let first := Server.handler "GET" cache checkedAt settledAt
                 (Server.Resolved (Some apiData)) in
  fst first = success_response "MISS" false settledAt (station :: rest) (Some station)
  /\ forall (checkedAt' settledAt' : Z) (upstream : Server.Upstream),
       checkedAt' - settledAt < Server.CACHE_DURATION_MS ->
       Server.handler "GET" (snd first) checkedAt' settledAt' upstream =
       (success_response "HIT" true settledAt (station :: rest) (Some station),
        snd first).
Proof.
  intros Hmiss Hstations Hset first. subst first.
  rewrite (handler_miss _ _ _ _ _ _ Hmiss Hstations). cbn [fst snd].
  split; [reflexivity|].
  intros checkedAt' settledAt' upstream Hage.
  unfold Server.handler, Server.try_block, Server.isCacheValid.
  cbn [String.eqb Ascii.eqb Bool.eqb negb Server.timestamp Server.data
       Server.stationInfo].
  destruct (Z.eqb_spec settledAt 0) as [?|_]; [contradiction|].
  destruct (Z.ltb_spec (checkedAt' - settledAt) Server.CACHE_DURATION_MS); [|lia].
  rewrite Hstations. reflexivity.
Qed.

Lemma handler_miss_then_hit_witness :
  let first := Server.handler "GET" Server.empty 1700000000000 1700000002000
                 (Server.Resolved (Some sample_response)) in
  fst (Server.handler "GET" (snd first) 1700000600000 1700000600500
         (Server.Rejected "Request timeout")) =
  success_response "HIT" true 1700000002000 [sample_station] (Some sample_station).
Proof.
  intros first.
  destruct (handler_miss_then_hit Server.empty 1700000000000 1700000002000
              sample_response sample_station []
              ltac:(reflexivity) ltac:(reflexivity) ltac:(discriminate))
    as [_ Hlater].
  subst first.
  rewrite (Hlater 1700000600000 1700000600500 (Server.Rejected "Request timeout")
             ltac:(reflexivity)).
  reflexivity.
Defined.

(** X20. A request whose method is not GET never reaches the cache or the
    upstream API: OPTIONS gets status 200 with an empty body, any other
    method gets 405 with [Method not allowed], both with the plain CORS
    headers, and the cache is left as it is. *)
Theorem handler_other_methods (httpMethod : string) (cache : Server.Cache)
  (checkedAt settledAt : Z) (upstream : Server.Upstream) :
  httpMethod <> "GET"%string ->
  Server.handler httpMethod cache checkedAt settledAt upstream =
  (if String.eqb httpMethod "OPTIONS"
   then {| Server.statusCode := 200; Server.headers := Server.cors_headers;
           Server.body := Server.EmptyBody |}
   else {| Server.statusCode := 405; Server.headers := Server.cors_headers;
           Server.body := Server.ErrorOnly "Method not allowed" |},
   cache).
Proof.
  intros Hmethod. unfold Server.handler.
  destruct (String.eqb httpMethod "OPTIONS"); [reflexivity|].
  apply String.eqb_neq in Hmethod. rewrite Hmethod. reflexivity.
Qed.

Lemma handler_other_methods_witness :
  Server.statusCode
    (fst (Server.handler "POST" Server.empty 1700000000000 1700000002000
            (Server.Resolved (Some sample_response)))) = 405
  /\ snd (Server.handler "POST" Server.empty 1700000000000 1700000002000
            (Server.Resolved (Some sample_response))) = Server.empty.
Proof.
  rewrite (handler_other_methods "POST" Server.empty 1700000000000 1700000002000
             (Server.Resolved (Some sample_response)) ltac:(discriminate)).
  split; reflexivity.
Defined.

(** X21. The handler keeps the cache coherent: it is either empty or holds
    a response with at least one station, together with a time and that
    response's first station.  From such a cache (the empty one to start
    with) every answer carries status 200, 405 or 500, and every successful
    body, hit or miss, lists at least one station and names the first of
    them as [stationInfo]. *)
Theorem handler_keeps_coherent (httpMethod : string) (cache : Server.Cache)
  (checkedAt settledAt : Z) (upstream : Server.Upstream) :
  coherent cache ->
  let result := Server.handler httpMethod cache checkedAt settledAt upstream in
  coherent (snd result)
  /\ (Server.statusCode (fst result) = 200
      \/ Server.statusCode (fst result) = 405
      \/ Server.statusCode (fst result) = 500)
  /\ (forall cached ts stations info,
        Server.body (fst result) = Server.Success cached ts stations info ->
        exists station rest, stations = station :: rest /\ info = Some station).
Proof.
  intros Hcoherent result. subst result. unfold Server.handler.
  destruct (String.eqb httpMethod "OPTIONS").
  { cbn. split; [exact Hcoherent|]. split; [tauto|]. intros ? ? ? ? [=]. }
  destruct (negb (String.eqb httpMethod "GET")).
  { cbn. split; [exact Hcoherent|]. split; [tauto|]. intros ? ? ? ? [=]. }
  unfold Server.try_block.
  destruct (Server.isCacheValid cache checkedAt) eqn:Hvalid.
  - destruct Hcoherent as [->|(apiData & station & rest & ts & Hstations & ->)];
      [discriminate Hvalid|].
    cbn. rewrite Hstations. cbn.
    split; [right; eauto 10|]. split; [tauto|].
    intros ? ? ? ? [= <- <- <- <-]. eauto.
  - destruct upstream as [message|[apiData|]].
    + cbn. split; [exact Hcoherent|]. split; [tauto|]. intros ? ? ? ? [=].
    + destruct (ApiResponse.stations apiData) as [[|station rest]|] eqn:Hstations.
      * cbn. split; [exact Hcoherent|]. split; [tauto|]. intros ? ? ? ? [=].
      * cbn. split; [right; eauto 10|]. split; [tauto|].
        intros ? ? ? ? [= <- <- <- <-]. eauto.
      * cbn. split; [exact Hcoherent|]. split; [tauto|]. intros ? ? ? ? [=].
    + cbn. split; [exact Hcoherent|]. split; [tauto|]. intros ? ? ? ? [=].
Qed.

Lemma handler_keeps_coherent_witness :
  coherent
    (snd (Server.handler "GET" Server.empty 1700000000000 1700000002000
            (Server.Resolved (Some sample_response)))).
Proof.
  apply (handler_keeps_coherent "GET" Server.empty 1700000000000 1700000002000
           (Server.Resolved (Some sample_response))).
  left. reflexivity.
Defined.

(** X22. An entry that is 55 minutes old or older is never served.  The
    upstream API is asked again: if the request is rejected the answer is
    the 500 failure response and the old entry stays in the cache; if it
    brings at least one station the answer is a [MISS] and the entry is
    replaced. *)
Theorem handler_expired (cache : Server.Cache) (ts checkedAt settledAt : Z) :
  Server.timestamp cache = Some ts ->
  Server.CACHE_DURATION_MS <= checkedAt - ts ->
  (forall message : string,
      Server.handler "GET" cache checkedAt settledAt (Server.Rejected message) =
      (failure_response message settledAt, cache))
  /\ (forall (apiData : ApiResponse.t) (station : Station.t) (rest : list Station.t),
        ApiResponse.stations apiData = Some (station :: rest) ->
        Server.handler "GET" cache checkedAt settledAt (Server.Resolved (Some apiData)) =
        (success_response "MISS" false settledAt (station :: rest) (Some station),
         {| Server.data := Some apiData; Server.timestamp := Some settledAt;
            Server.stationInfo := Some station |})).
Proof.
  intros Hts Hage.
  assert (Hmiss : Server.isCacheValid cache checkedAt = false).
  { unfold Server.isCacheValid. rewrite Hts.
    destruct (Server.data cache); [|reflexivity].
    destruct (ts =? 0); [reflexivity|]. apply Z.ltb_ge. exact Hage. }
  split.
  - intros message. unfold Server.handler, Server.try_block.
    cbn [String.eqb Ascii.eqb Bool.eqb negb]. rewrite Hmiss. reflexivity.
  - intros apiData station rest Hstations. apply handler_miss; assumption.
Qed.

Lemma handler_expired_witness :
  let cache := {| Server.data := Some sample_response;
                  Server.timestamp := Some 1700000000000;
                  Server.stationInfo := Some sample_station |} in
  Server.handler "GET" cache 1700003300000 1700003310000
    (Server.Rejected "Request timeout") =
  (failure_response "Request timeout" 1700003310000, cache).
Proof.
  intros cache.
  destruct (handler_expired cache 1700000000000 1700003300000 1700003310000
              ltac:(reflexivity) ltac:(unfold Server.CACHE_DURATION_MS; lia))
    as [Hrejected _].
  apply Hrejected.
Defined.

(** ** Constant series *)

Lemma window_sum_temperatures (l : list ChartData) :
  forall acc,
    fold_left (fun acc item => JS.add acc (temperature item)) l acc =
    fold_left JS.add (temperature <$> l) acc.
Proof. induction l as [|p l IH]; intros acc; [reflexivity|apply IH]. Qed.

(** The average of a window depends on its temperatures only. *)
Lemma window_average_temperatures (l l' : list ChartData) :
  temperature <$> l = temperature <$> l' -> window_average l = window_average l'.
Proof.
  intros Heq. unfold window_average, window_sum, JS.reduce.
  rewrite !window_sum_temperatures, Heq.
  apply (f_equal length) in Heq. rewrite !length_fmap in Heq. rewrite Heq.
  reflexivity.
Qed.

Lemma constant_window_table :
  forallb (fun k => forallb (fun n => constant_window_unchanged k (S n)) (seq 0 24))
          (seqZ (-300) 601) = true.
Proof. vm_compute. reflexivity. Qed.

Lemma constant_temperatures (l : list ChartData) (t : JS.number) :
  Forall (fun p => temperature p = t) l ->
  temperature <$> l = temperature <$> replicate (length l) (reading t).
Proof.
  induction 1 as [|p l Hp _ IH]; [reflexivity|].
  cbn [fmap list_fmap length replicate]. rewrite Hp. f_equal. exact IH.
Qed.

(** X23. A constant series of a one-decimal value between -30.0 and 30.0
    comes out of the trailing smoother unchanged, for every window size from
    1 to 24: neither the floating-point sums nor the rounding to one decimal
    move a constant reading. *)
Theorem calculateMovingAverage_constant (k w : Z) (data : list ChartData) :
  -300 <= k <= 300 -> 0 < w <= 24 ->
  Forall (fun p => temperature p = tenths k) data ->
  calculateMovingAverage data w = data.
Proof.
  intros Hk Hw Hall. unfold calculateMovingAverage.
  apply list_eq. intros i. rewrite list_lookup_imap.
  destruct (data !! i) as [p|] eqn:Hp; [|reflexivity].
  cbn [fmap option_fmap option_map]. f_equal.
  pose proof (lookup_lt_Some _ _ _ Hp) as Hi.
  assert (Hwindow : Forall (fun q => temperature q = tenths k)
                      (trailing_window data w i)).
  { rewrite trailing_window_take_drop by lia.
    apply Forall_take, Forall_drop. exact Hall. }
  pose proof (trailing_window_take_drop data w i ltac:(lia) Hi) as Hshape.
  assert (Hlen : exists n, (n < 24)%nat /\ length (trailing_window data w i) = S n).
  { exists (length (trailing_window data w i) - 1)%nat.
    rewrite Hshape, length_take, length_drop. lia. }
  destruct Hlen as (n & Hn & Hlen).
  rewrite (window_average_temperatures _ (replicate (S n) (reading (tenths k)))).
  2:{ rewrite <- Hlen. apply constant_temperatures. exact Hwindow. }
  pose proof constant_window_table as Htable.
  rewrite forallb_forall in Htable.
  specialize (Htable k ltac:(apply list_elem_of_In, elem_of_seqZ; lia)).
  rewrite forallb_forall in Htable.
  specialize (Htable n ltac:(apply in_seq; lia)).
  apply number_eqb_eq in Htable. rewrite Htable.
  rewrite Forall_lookup in Hall. specialize (Hall i p Hp).
  destruct p as [d t tm dt]. cbn in Hall. subst t. reflexivity.
Qed.

Lemma calculateMovingAverage_constant_witness :
  calculateMovingAverage (replicate 30 (reading (tenths 13))) 24 =
  replicate 30 (reading (tenths 13)).
Proof.
  apply (calculateMovingAverage_constant 13 24 (replicate 30 (reading (tenths 13)))).
  - lia.
  - lia.
  - apply Forall_replicate. reflexivity.
Defined.
